(** * arc-commerce: buying credits with USDC

    A shallow embedding of the payment logic of the repository:

    - [src/app/api/circle/payment/route.ts]: the custodial payment route
      ([POST]), with its amount conversion, its guards, the call of the
      provider's [createTransaction] and the insert into [transactions];
    - the balance route ([GET], [/api/circle/balance]);
    - the [PurchaseCreditsCard] component: the values derived on each render
      ([requiredUsdc], [requiredUsdcMicro], [hasSufficientBalance],
      [isConnected], [buttonDisabled]) and the two purchase handlers.

    JavaScript numbers are IEEE 754 binary64 values.  They are modelled with
    the inductive [spec_float] of the standard library at precision 53 and
    maximal exponent 1024, whose operations are plain functions: every
    product, comparison and rounding below is computed, not assumed. *)

From Stdlib Require Import ZArith List String Ascii Bool Lia.
From Stdlib Require Import SpecFloat DecimalString.
Import ListNotations.

Local Open Scope string_scope.
Local Open Scope Z_scope.

(* ================================================================== *)
(** ** JavaScript numbers *)
(* ================================================================== *)

Module JsNum.

Definition float64 : Type := spec_float.

Definition prec : Z := 53.
Definition emax : Z := 1024.

Definition NaN : float64 := S754_nan.

(** The number denoted by an integer literal, rounded to nearest-even. *)
Definition of_Z (z : Z) : float64 := binary_normalize prec emax z 0 false.

(** The binary64 value nearest to the fraction [p / q]. *)
Definition of_ratio (neg : bool) (p q : positive) : float64 :=
  let '(mz, ez, lz) := SFdiv_core_binary prec emax (Zpos p) 0 (Zpos q) 0 in
  binary_round_aux prec emax neg mz ez lz.

(** The binary64 value nearest to [(-1)^neg * m * 10^e]: the value of a
    decimal literal with digits [m] and decimal exponent [e]. *)
Definition of_decimal (neg : bool) (m : Z) (e : Z) : float64 :=
  match m with
  | Zpos p =>
      if 0 <=? e
      then binary_round prec emax neg (p * Z.to_pos (10 ^ e))%positive 0
      else of_ratio neg p (Z.to_pos (10 ^ (- e)))
  | _ => S754_zero neg
  end.

Definition mul (x y : float64) : float64 := SFmul prec emax x y.
Definition sub (x y : float64) : float64 := SFsub prec emax x y.
Definition div (x y : float64) : float64 := SFdiv prec emax x y.

(** [x >= y], [x <= y] and [x < y]; each is false when an operand is NaN. *)
Definition ge (x y : float64) : bool := SFleb y x.
Definition le (x y : float64) : bool := SFleb x y.
Definition lt (x y : float64) : bool := SFltb x y.

(** ToBoolean on a number: [0], [-0] and [NaN] are falsy. *)
Definition truthy (x : float64) : bool :=
  match x with
  | S754_zero _ | S754_nan => false
  | _ => true
  end.

(** The integer [floor ((-1)^s * m * 2^e)]. *)
Definition floorZ (s : bool) (m : positive) (e : Z) : Z :=
  let v := cond_Zopp s (Zpos m) in
  if 0 <=? e then v * 2 ^ e else v / 2 ^ (- e).

(** The integer [floor ((-1)^s * m * 2^e + 1/2)]. *)
Definition roundZ (s : bool) (m : positive) (e : Z) : Z :=
  let v := cond_Zopp s (Zpos m) in
  if 0 <=? e then v * 2 ^ e else (2 * v + 2 ^ (- e)) / 2 ^ (- e + 1).

(** [Math.floor]. *)
Definition Math_floor (x : float64) : float64 :=
  match x with
  | S754_finite s m e => binary_normalize prec emax (floorZ s m e) 0 s
  | _ => x
  end.

(** [Math.round]: the nearest integer, ties towards plus infinity. *)
Definition Math_round (x : float64) : float64 :=
  match x with
  | S754_finite s m e => binary_normalize prec emax (roundZ s m e) 0 s
  | _ => x
  end.

(** [Math.max(0, x)]. *)
Definition Math_max0 (x : float64) : float64 :=
  match x with
  | S754_nan => S754_nan
  | S754_zero _ => S754_zero false
  | S754_infinity s | S754_finite s _ _ => if s then S754_zero false else x
  end.

(** [BigInt(x)] for a number [x]: the integer it denotes, and [None] where
    the engine throws a RangeError (NaN, an infinity, a fraction). *)
Definition BigInt (x : float64) : option Z :=
  match x with
  | S754_zero _ => Some 0
  | S754_finite s m e =>
      let v := cond_Zopp s (Zpos m) in
      if 0 <=? e then Some (v * 2 ^ e)
      else if v mod 2 ^ (- e) =? 0 then Some (v / 2 ^ (- e)) else None
  | _ => None
  end.

(** [BigInt.prototype.toString()]: the decimal numeral. *)
Definition BigInt_toString (z : Z) : string :=
  NilZero.string_of_int (Z.to_int z).

End JsNum.

(* ================================================================== *)
(** ** JavaScript strings and [parseFloat] *)
(* ================================================================== *)

Module JsString.
Import JsNum.

(** ToBoolean on a string: only the empty string is falsy. *)
Definition truthy (s : string) : bool :=
  match s with
  | EmptyString => false
  | String _ _ => true
  end.

Definition code (c : ascii) : Z := Z.of_N (N_of_ascii c).

(** White space and line terminators among the code units below 256. *)
Definition is_space (c : ascii) : bool :=
  let n := code c in
  ((9 <=? n) && (n <=? 13)) || (n =? 32) || (n =? 160).

Definition digit (c : ascii) : option Z :=
  let n := code c in
  if (48 <=? n) && (n <=? 57) then Some (n - 48) else None.

Fixpoint trimStart (s : string) : string :=
  match s with
  | String c r => if is_space c then trimStart r else s
  | EmptyString => s
  end.

(** Reads the longest run of decimal digits at the head of [s]: the value
    accumulated on [acc], the number of digits read added to [cnt], and the
    rest of the string. *)
Fixpoint digits (s : string) (acc cnt : Z) : Z * Z * string :=
  match s with
  | String c r =>
      match digit c with
      | Some d => digits r (10 * acc + d) (cnt + 1)
      | None => (acc, cnt, s)
      end
  | EmptyString => (acc, cnt, s)
  end.

(** An optional sign at the head of [s]: [true] for a minus. *)
Definition sign (s : string) : bool * string :=
  match s with
  | String "-" r => (true, r)
  | String "+" r => (false, r)
  | _ => (false, s)
  end.

(** The exponent part [e] or [E], optional sign, at least one digit; it is
    not consumed, and counts for zero, when no digit follows. *)
Definition exponent (s : string) : Z :=
  match s with
  | String c r =>
      if (code c =? 101) || (code c =? 69) then
        let '(neg, r') := sign r in
        let '(v, n, _) := digits r' 0 0 in
        if 0 <? n then cond_Zopp neg v else 0
      else 0
  | EmptyString => 0
  end.

(** [parseFloat]: leading white space is skipped, then the longest prefix
    that is a decimal literal is converted; NaN when there is none. *)
Definition parseFloat (input : string) : float64 :=
  let '(neg, s) := sign (trimStart input) in
  if prefix "Infinity" s then S754_infinity neg
  else
    let '(ip, ni, r1) := digits s 0 0 in
    let '(fp, nf, r2) :=
      match r1 with
      | String "." r => digits r 0 0
      | _ => (0, 0, r1)
      end in
    if ni + nf =? 0 then NaN
    else of_decimal neg (ip * 10 ^ nf + fp) (exponent r2 - nf).

End JsString.

(* ================================================================== *)
(** ** JSON scalars of a request body *)
(* ================================================================== *)

Module Js.
Import JsNum.

(** The values a field of a parsed JSON body is handled as: a missing field
    reads as [undefined]; arrays and nested objects are not modelled. *)
Inductive JsVal : Type :=
| JUndefined
| JNull
| JBool (b : bool)
| JNum (x : float64)
| JStr (s : string).

Definition truthy (v : JsVal) : bool :=
  match v with
  | JUndefined | JNull => false
  | JBool b => b
  | JNum x => JsNum.truthy x
  | JStr s => JsString.truthy s
  end.

(** Strict equality [a === b] of two values that are a string or undefined. *)
Definition strict_eq (a b : option string) : bool :=
  match a, b with
  | None, None => true
  | Some x, Some y => String.eqb x y
  | _, _ => false
  end.

End Js.

(* ================================================================== *)
(** ** The collaborators of the routes: session, tables, wallet provider *)
(* ================================================================== *)

Module Platform.
Import JsNum Js.

(** What a [catch] clause can receive. *)
Inductive Exn : Type :=
| JsError (message : string)   (* [new Error(message)], or an error of a client library *)
| RangeError_BigInt            (* [BigInt] of a number that is not an integer *)
| RangeError_Exponent          (* [**] on BigInts with a negative exponent *)
| TypeError_Destructure        (* destructuring a body that parsed to [null] *)
| SyntaxError_Json.            (* [req.json()] on a body that is not JSON *)

(** The result of an awaited call of the provider's SDK. *)
Inductive SdkResult (A : Type) : Type :=
| SdkThrows (e : Exn)
| SdkReturns (a : A).
Arguments SdkThrows {A} e.
Arguments SdkReturns {A} a.

(** The [{ data, error }] pair a query of the database client resolves to. *)
Record QueryResult (A : Type) : Type := mkQuery {
  q_data : option A;
  q_error : option string
}.
Arguments mkQuery {A} q_data q_error.
Arguments q_data {A} q.
Arguments q_error {A} q.

(** The row of a result the code goes on with: [error || !data] fails. *)
Definition usable {A : Type} (q : QueryResult A) : option A :=
  match q_error q with
  | Some _ => None
  | None => q_data q
  end.

Record User : Type := mkUser { uid : string }.

Record AuthResult : Type := mkAuth {
  auth_user : option User;
  auth_error : option string
}.

Record WalletRow : Type := mkWallet {
  circle_wallet_id : string;
  blockchain : string;
  address : string;
  type : string
}.

Record AdminWalletRow : Type := mkAdminWallet {
  admin_circle_wallet_id : string;
  admin_address : string;
  admin_chain : string
}.

Record Token : Type := mkToken {
  token_id : option string;
  decimals : option float64;
  symbol : option string
}.

Record TokenBalance : Type := mkTokenBalance {
  token : option Token;
  amount : string
}.

Record BalancesData : Type := mkBalancesData {
  tokenBalances : option (list TokenBalance)
}.

Record BalancesResponse : Type := mkBalancesResponse {
  balances_data : option BalancesData
}.

(** [tb.token?.id]. *)
Definition tb_token_id (tb : TokenBalance) : option string :=
  match token tb with
  | Some t => token_id t
  | None => None
  end.

(** [response.data?.tokenBalances?.find((tb) => tb.token?.id === usdcTokenId)]. *)
Definition find_usdc (response : BalancesResponse) (usdcTokenId : option string)
  : option TokenBalance :=
  match balances_data response with
  | Some d =>
      match tokenBalances d with
      | Some tbs => find (fun tb => strict_eq (tb_token_id tb) usdcTokenId) tbs
      | None => None
      end
  | None => None
  end.

(** A token id is listed when some entry of the listing carries it. *)
Definition lists_token (response : BalancesResponse) (t : string) : Prop :=
  exists d tbs tb,
    balances_data response = Some d /\ tokenBalances d = Some tbs /\
    In tb tbs /\ tb_token_id tb = Some t.

(** The argument of [createTransaction]. *)
Record CreateTxReq : Type := mkCreateTxReq {
  walletId : string;
  destinationAddress : string;
  req_amount : list string;
  fee_type : string;
  feeLevel : string;
  tokenId : option string
}.

Record CreateTxData : Type := mkCreateTxData { created_id : string }.

Record CreateTxResponse : Type := mkCreateTxResponse {
  created_data : option CreateTxData
}.

Record Metadata : Type := mkMetadata {
  payment_method : string;
  circle_transaction_id : string
}.

(** The object passed to [insert] on the [transactions] table. *)
Record TxRecord : Type := mkTxRecord {
  user_id : string;
  wallet_id : string;
  direction : string;
  amount_usdc : JsVal;
  credit_amount : JsVal;
  exchange_rate : float64;
  chain : string;
  asset : string;
  tx_hash : string;
  status : string;
  idempotency_key : string;
  metadata : Metadata
}.

(** The inserted row as selected back; only its [id] is read. *)
Record TxRow : Type := mkTxRow { row_id : JsVal }.

(** The text of the [error] field of an error response. *)
Inductive ErrorText : Type :=
| Lit (s : string)
| EngineMessage (e : Exn).

Inductive Body : Type :=
| BError (error : ErrorText)
| BPayment (success : bool) (transactionId : JsVal) (circleTransactionId : string)
| BBalance (balance : string) (rawBalance : option TokenBalance).

Record Response : Type := mkResponse {
  http_status : Z;
  body : Body
}.

(** [NextResponse.json({ error }, { status })]. *)
Definition json_error (msg : string) (st : Z) : Response :=
  mkResponse st (BError (Lit msg)).

(** [NextResponse.json(value)]: the status defaults to 200. *)
Definition json_ok (b : Body) : Response := mkResponse 200 b.

(** [error.message || fallback] in a catch clause. *)
Definition message_or (e : Exn) (fallback : string) : ErrorText :=
  match e with
  | JsError m => Lit (if JsString.truthy m then m else fallback)
  | _ => EngineMessage e
  end.

Inductive Level : Type := LogInfo | LogWarn | LogError.

(** The observable steps of a route, in the order they happen.  A console
    event carries the constant part of the message logged. *)
Inductive Event : Type :=
| EvGetUser
| EvReqJson
| EvSelectScaWallet (uid : string)
| EvSelectRecentWallet (uid : string)
| EvSelectAdminWallet
| EvGetWalletTokenBalance (wallet : string)
| EvCreateTransaction (req : CreateTxReq)
| EvInsertTransaction (rec : TxRecord)
| EvConsole (lvl : Level) (text : string).

(** A parsed request body: the two fields the payment route destructures. *)
Inductive ReqBody : Type :=
| BodyNotJson
| BodyNull
| BodyFields (credits usdcAmount : JsVal).

(** Everything a request meets outside the route's own code.  The session
    and the queries of the database client resolve to a pair of data and
    error; [req.json()] and the calls of the provider's SDK may reject. *)
Record Env : Type := mkEnv {
  getUser : AuthResult;
  request_body : ReqBody;
  select_sca_wallet : string -> QueryResult WalletRow;
  select_recent_wallet : string -> QueryResult WalletRow;
  select_admin_wallet : QueryResult AdminWalletRow;
  getWalletTokenBalance : string -> SdkResult BalancesResponse;
  CIRCLE_USDC_TOKEN_ID : option string;
  createTransaction : CreateTxReq -> SdkResult CreateTxResponse;
  insert_transaction : TxRecord -> QueryResult TxRow
}.

(** *** Control flow of an async handler: trace, early return, exception *)

Inductive Outcome (A : Type) : Type :=
| Normal (a : A)
| Returned (r : Response)
| Thrown (e : Exn).
Arguments Normal {A} a.
Arguments Returned {A} r.
Arguments Thrown {A} e.

Definition M (A : Type) : Type := (list Event * Outcome A)%type.

Definition ret {A : Type} (a : A) : M A := ([], Normal a).

Definition bind {A B : Type} (m : M A) (k : A -> M B) : M B :=
  match m with
  | (t, Normal a) => let '(t', o) := k a in ((t ++ t')%list, o)
  | (t, Returned r) => (t, Returned r)
  | (t, Thrown e) => (t, Thrown e)
  end.

Notation "x <- m ;; k" := (bind m (fun x => k))
  (at level 61, m at next level, right associativity).
Notation "m ;;; k" := (bind m (fun _ => k))
  (at level 61, right associativity).

Definition early {A : Type} (r : Response) : M A := ([], Returned r).
Definition throw {A : Type} (e : Exn) : M A := ([], Thrown e).
Definition emit (ev : Event) : M unit := ([ev], Normal tt).

(** An awaited call that resolves. *)
Definition call {A : Type} (ev : Event) (a : A) : M A := ([ev], Normal a).

(** An awaited call of the SDK: it resolves or rejects. *)
Definition call_sdk {A : Type} (ev : Event) (r : SdkResult A) : M A :=
  match r with
  | SdkReturns a => ([ev], Normal a)
  | SdkThrows e => ([ev], Thrown e)
  end.

(** [try { ... } catch (error) { console.error(...); return 500 }]. *)
Definition try_catch (m : M Response) (text fallback : string)
  : list Event * Response :=
  match m with
  | (t, Normal r) | (t, Returned r) => (t, r)
  | (t, Thrown e) =>
      ((t ++ [EvConsole LogError text])%list, mkResponse 500 (BError (message_or e fallback)))
  end.

End Platform.

(* ================================================================== *)
(** ** The custodial payment route: [POST /api/circle/payment] *)
(* ================================================================== *)

Module PaymentRoute.
Import JsNum Js Platform.

(** [amountNum] as the product [amountNum * 100] reads it: a string goes
    through [parseFloat], a number is taken as it is, the other scalars
    through the implicit ToNumber of the multiplication. *)
Definition amountNum (usdcAmount : JsVal) : float64 :=
  match usdcAmount with
  | JStr s => JsString.parseFloat s
  | JNum x => x
  | JBool b => of_Z (if b then 1 else 0)
  | JNull => of_Z 0
  | JUndefined => NaN
  end.

(** [BigInt(Math.floor(amountNum * 100)) * BigInt(10) ** BigInt(decimals - 2)],
    operands evaluated left to right; [inl] is the exception thrown. *)
Definition amountAtoms (usdcAmount : JsVal) (decimals : float64) : Exn + Z :=
  match BigInt (Math_floor (mul (amountNum usdcAmount) (of_Z 100))) with
  | None => inl RangeError_BigInt
  | Some cents =>
      match BigInt (sub decimals (of_Z 2)) with
      | None => inl RangeError_BigInt
      | Some e =>
          if e <? 0 then inl RangeError_Exponent else inr (cents * 10 ^ e)
      end
  end.

Definition amountInSmallestUnit (usdcAmount : JsVal) (decimals : float64)
  : Exn + string :=
  match amountAtoms usdcAmount decimals with
  | inl e => inl e
  | inr atoms => inr (BigInt_toString atoms)
  end.

(** The amount of [cents] hundredths as a JSON number: the binary64 value
    nearest to [cents / 100], which is what parsing the decimal numeral
    with two fractional digits yields. *)
Definition two_digit_amount (cents : Z) : JsVal :=
  JNum (of_decimal false cents (-2)).

(** What the specification asks of the conversion: for the amount
    [a = cents / 100] and [d >= 2] decimals, [round(a * 10^d)], which is the
    integer [cents * 10^(d-2)]. *)
Definition spec_convert (cents d : Z) : Z := cents * 10 ^ (d - 2).

(** The conversion in the words of the specification: multiply by 100,
    round, convert to an integer, multiply by [10^(d-2)].  It differs from
    [amountAtoms] in [Math_round] standing where the route has
    [Math_floor]. *)
Definition spec_algorithm (usdcAmount : JsVal) (decimals : float64) : Exn + Z :=
  match BigInt (Math_round (mul (amountNum usdcAmount) (of_Z 100))) with
  | None => inl RangeError_BigInt
  | Some cents =>
      match BigInt (sub decimals (of_Z 2)) with
      | None => inl RangeError_BigInt
      | Some e =>
          if e <? 0 then inl RangeError_Exponent else inr (cents * 10 ^ e)
      end
  end.

(** [usdcToken.token?.decimals ?? 6]. *)
Definition decimals_of (usdcToken : TokenBalance) : float64 :=
  match token usdcToken with
  | Some t =>
      match decimals t with
      | Some d => d
      | None => of_Z 6
      end
  | None => of_Z 6
  end.

Definition transfer_request (userWallet : WalletRow) (adminWallet : AdminWalletRow)
    (amountInSmallestUnit : string) (usdcTokenId : option string) : CreateTxReq :=
  {| walletId := circle_wallet_id userWallet;
     destinationAddress := admin_address adminWallet;
     req_amount := [amountInSmallestUnit];
     fee_type := "level";
     feeLevel := "MEDIUM";
     tokenId := usdcTokenId |}.

Definition transaction_record (user : User) (userWallet : WalletRow)
    (credits usdcAmount : JsVal) (circleTransactionId : string) : TxRecord :=
  {| user_id := uid user;
     wallet_id := circle_wallet_id userWallet;
     direction := "credit";
     amount_usdc := usdcAmount;
     credit_amount := credits;
     exchange_rate := of_Z 1;
     chain := blockchain userWallet;
     asset := "USDC";
     tx_hash := "pending";
     status := "pending";
     idempotency_key := "client:" ++ circleTransactionId;
     metadata := {| payment_method := "circle_developer_wallet";
                    circle_transaction_id := circleTransactionId |} |}.

(** [transaction?.id || circleTransactionId]. *)
Definition returned_transaction_id (transaction : option TxRow)
    (circleTransactionId : string) : JsVal :=
  match transaction with
  | Some row => if truthy (row_id row) then row_id row else JStr circleTransactionId
  | None => JStr circleTransactionId
  end.

Definition debug_logs : M unit :=
  emit (EvConsole LogInfo "[DEBUG] Payment Execution:") ;;;
  emit (EvConsole LogInfo "- User Wallet ID:") ;;;
  emit (EvConsole LogInfo "- Token ID:") ;;;
  emit (EvConsole LogInfo "- Decimals:") ;;;
  emit (EvConsole LogInfo "- Amount (atoms):") ;;;
  emit (EvConsole LogInfo "- From:") ;;;
  emit (EvConsole LogInfo "- To:").

(** Steps 3 and 4 of the route, once the token entry has been found. *)
Definition dispatch_and_record (env : Env) (user : User) (userWallet : WalletRow)
    (adminWallet : AdminWalletRow) (credits usdcAmount : JsVal)
    (usdcToken : TokenBalance) : M Response :=
  let decimals := decimals_of usdcToken in
  atoms <- match amountInSmallestUnit usdcAmount decimals with
           | inl e => throw e
           | inr s => ret s
           end ;;
  debug_logs ;;;
  let req := transfer_request userWallet adminWallet atoms (CIRCLE_USDC_TOKEN_ID env) in
  transactionResponse <- call_sdk (EvCreateTransaction req) (createTransaction env req) ;;
  circleTransactionId <-
    match created_data transactionResponse with
    | Some d =>
        if JsString.truthy (created_id d) then ret (created_id d)
        else throw (JsError "Failed to initiate Circle transaction")
    | None => throw (JsError "Failed to initiate Circle transaction")
    end ;;
  let record := transaction_record user userWallet credits usdcAmount circleTransactionId in
  inserted <- call (EvInsertTransaction record) (insert_transaction env record) ;;
  match q_error inserted with
  | Some _ => emit (EvConsole LogError "Failed to record transaction:")
  | None => ret tt
  end ;;;
  ret (json_ok (BPayment true
                  (returned_transaction_id (q_data inserted) circleTransactionId)
                  circleTransactionId)).

(** What steps 0 to 2 of the route establish: the session's user, the two
    fields of the body, the user's wallet and the platform's wallet. *)
Record Parties : Type := mkParties {
  user : User;
  credits : JsVal;
  usdcAmount : JsVal;
  userWallet : WalletRow;
  adminWallet : AdminWalletRow
}.

(** Session, body and the two wallet lookups, each with its early return. *)
Definition resolve_parties (env : Env) : M Parties :=
  auth <- call EvGetUser (getUser env) ;;
  user <- match auth_error auth, auth_user auth with
          | None, Some u => ret u
          | _, _ => early (json_error "Unauthorized" 401)
          end ;;
  fields <- match request_body env with
            | BodyNotJson => ([EvReqJson], Thrown SyntaxError_Json)
            | BodyNull => ([EvReqJson], Thrown TypeError_Destructure)
            | BodyFields c u => call EvReqJson (c, u)
            end ;;
  let '(credits, usdcAmount) := fields in
  (if negb (truthy credits) || negb (truthy usdcAmount)
   then early (json_error "credits and usdcAmount are required" 400)
   else ret tt) ;;;
  sca <- call (EvSelectScaWallet (uid user)) (select_sca_wallet env (uid user)) ;;
  userWallet <-
    match usable sca with
    | Some w => ret w
    | None =>
        fallback <- call (EvSelectRecentWallet (uid user))
                         (select_recent_wallet env (uid user)) ;;
        match usable fallback with
        | Some w => ret w
        | None =>
            early (json_error
              "Circle Developer Wallet not found. Please create one in the Wallet Demo first."
              404)
        end
    end ;;
  admin <- call EvSelectAdminWallet (select_admin_wallet env) ;;
  adminWallet <- match usable admin with
                 | Some a => ret a
                 | None => early (json_error "Platform admin wallet not configured" 500)
                 end ;;
  ret (mkParties user credits usdcAmount userWallet adminWallet).

(** Balance listing, token lookup with its early return, then the transfer. *)
Definition transfer (env : Env) (p : Parties) : M Response :=
  balancesResponse <-
    call_sdk (EvGetWalletTokenBalance (circle_wallet_id (userWallet p)))
             (getWalletTokenBalance env (circle_wallet_id (userWallet p))) ;;
  match find_usdc balancesResponse (CIRCLE_USDC_TOKEN_ID env) with
  | None =>
      emit (EvConsole LogError "[CRITICAL] USDC Token ID not found in wallet") ;;;
      early (json_error "USDC balance not found in wallet." 400)
  | Some usdcToken =>
      dispatch_and_record env (user p) (userWallet p) (adminWallet p)
                          (credits p) (usdcAmount p) usdcToken
  end.

(** The body of the [try] block of [POST]. *)
Definition POST_try (env : Env) : M Response :=
  p <- resolve_parties env ;;
  transfer env p.

Definition POST (env : Env) : list Event * Response :=
  try_catch (POST_try env) "Circle payment error:" "An unexpected error occurred".

(** *** Vocabulary for statements about traces *)

(** The events of steps 0 to 2. *)
Definition guard_event (ev : Event) : bool :=
  match ev with
  | EvGetUser | EvReqJson | EvSelectScaWallet _ | EvSelectRecentWallet _
  | EvSelectAdminWallet => true
  | _ => false
  end.

(** The events of steps 3 and 4 after the listing has been read. *)
Definition dispatch_event (ev : Event) : bool :=
  match ev with
  | EvCreateTransaction _ | EvInsertTransaction _ | EvConsole _ _ => true
  | _ => false
  end.

(** The trace of [debug_logs]. *)
Definition debug_events : list Event := fst debug_logs.

(** The [console.error] of a failed insert. *)
Definition insert_failure_log (inserted : QueryResult TxRow) : list Event :=
  match q_error inserted with
  | Some _ => [EvConsole LogError "Failed to record transaction:"]
  | None => []
  end.

(** The event a [catch] clause adds to a trace. *)
Definition catch_log (o : Outcome Response) (text : string) : list Event :=
  match o with
  | Thrown _ => [EvConsole LogError text]
  | _ => []
  end.

(** *** A concrete deployment, for the examples *)

Definition alice : User := mkUser "user-1".

Definition alice_wallet : WalletRow :=
  mkWallet "wallet-1" "ARC-TESTNET" "0xa11ce" "SCA".

Definition treasury : AdminWalletRow :=
  mkAdminWallet "wallet-0" "0x7ea5" "ARC-TESTNET".

Definition usdc_entry (amt : string) : TokenBalance :=
  mkTokenBalance (Some (mkToken (Some "usdc-token") (Some (of_Z 6)) (Some "USDC"))) amt.

Definition other_entry : TokenBalance :=
  mkTokenBalance (Some (mkToken (Some "eurc-token") (Some (of_Z 6)) (Some "EURC"))) "7".

Definition listing (tbs : list TokenBalance) : SdkResult BalancesResponse :=
  SdkReturns (mkBalancesResponse (Some (mkBalancesData (Some tbs)))).

(** A session of [alice], a provider that accepts every transfer under the
    id [tx-1], a database that stores every row under the id [row-1]. *)
Definition demo_env (b : ReqBody) (tbs : list TokenBalance) : Env :=
  {| getUser := mkAuth (Some alice) None;
     request_body := b;
     select_sca_wallet := fun _ => mkQuery (Some alice_wallet) None;
     select_recent_wallet := fun _ => mkQuery (Some alice_wallet) None;
     select_admin_wallet := mkQuery (Some treasury) None;
     getWalletTokenBalance := fun _ => listing tbs;
     CIRCLE_USDC_TOKEN_ID := Some "usdc-token";
     createTransaction :=
       fun _ => SdkReturns (mkCreateTxResponse (Some (mkCreateTxData "tx-1")));
     insert_transaction := fun _ => mkQuery (Some (mkTxRow (JStr "row-1"))) None |}.

(** The same deployment with a database whose insert fails. *)
Definition demo_env_db_down (b : ReqBody) (tbs : list TokenBalance) : Env :=
  let env := demo_env b tbs in
  {| getUser := getUser env;
     request_body := request_body env;
     select_sca_wallet := select_sca_wallet env;
     select_recent_wallet := select_recent_wallet env;
     select_admin_wallet := select_admin_wallet env;
     getWalletTokenBalance := getWalletTokenBalance env;
     CIRCLE_USDC_TOKEN_ID := CIRCLE_USDC_TOKEN_ID env;
     createTransaction := createTransaction env;
     insert_transaction := fun _ => mkQuery None (Some "connection refused") |}.

(** A request of 100 credits for 100 USDC on a wallet without a USDC entry. *)
Definition unlisted_env : Env :=
  demo_env (BodyFields (JNum (of_Z 100)) (JNum (of_Z 100))) [other_entry].

(** The same request on a wallet holding 250.5 USDC. *)
Definition paying_env : Env :=
  demo_env (BodyFields (JNum (of_Z 100)) (JNum (of_Z 100)))
           [other_entry; usdc_entry "250.5"].

Definition paying_request : CreateTxReq :=
  transfer_request alice_wallet treasury "100000000" (Some "usdc-token").

Definition db_down_env : Env :=
  demo_env_db_down (BodyFields (JNum (of_Z 100)) (JNum (of_Z 100)))
                   [other_entry; usdc_entry "250.5"].

(** A body asking for 1000 credits against 1 USDC. *)
Definition underpaying_env : Env :=
  demo_env (BodyFields (JNum (of_Z 1000)) (JNum (of_Z 1)))
           [other_entry; usdc_entry "250.5"].

(** Amounts of whole cents from 0.00 up to [n / 100]. *)
Definition cents_upto (n : Z) : list Z := map Z.of_nat (seq 0 (S (Z.to_nat n))).

(** Whether the route's conversion of [cents / 100] at [d] decimals is the
    amount the specification asks for. *)
Definition conversion_exact (d : Z) (cents : Z) : bool :=
  match amountAtoms (two_digit_amount cents) (of_Z d) with
  | inr atoms => atoms =? spec_convert cents d
  | inl _ => false
  end.

End PaymentRoute.

(* ================================================================== *)
(** ** The balance route: [GET /api/circle/balance?walletId=...] *)
(* ================================================================== *)

Module BalanceRoute.
Import JsNum Js Platform.

(** [usdcBalance?.amount || "0"]. *)
Definition balance_field (usdcBalance : option TokenBalance) : string :=
  match usdcBalance with
  | Some tb => if JsString.truthy (amount tb) then amount tb else "0"
  | None => "0"
  end.

(** The body of the [try] block of [GET]; [walletId] is what
    [searchParams.get] returned, [None] for [null]. *)
Definition GET_try (env : Env) (walletId : option string) : M Response :=
  walletId <- match walletId with
              | Some w =>
                  if JsString.truthy w then ret w
                  else early (json_error "walletId is required" 400)
              | None => early (json_error "walletId is required" 400)
              end ;;
  auth <- call EvGetUser (getUser env) ;;
  match auth_error auth, auth_user auth with
  | None, Some _ => ret tt
  | _, _ => early (json_error "Unauthorized" 401)
  end ;;;
  response <- call_sdk (EvGetWalletTokenBalance walletId)
                       (getWalletTokenBalance env walletId) ;;
  emit (EvConsole LogInfo "[DEBUG] Wallet balances:") ;;;
  let usdcBalance := find_usdc response (CIRCLE_USDC_TOKEN_ID env) in
  match usdcBalance with
  | None => emit (EvConsole LogWarn "[DEBUG] Configured USDC Token ID not found in wallet balances.")
  | Some _ => ret tt
  end ;;;
  ret (json_ok (BBalance (balance_field usdcBalance) usdcBalance)).

Definition GET (env : Env) (walletId : option string) : list Event * Response :=
  try_catch (GET_try env walletId)
            "Error fetching Circle wallet balance:" "Failed to fetch balance".

End BalanceRoute.

(* ================================================================== *)
(** ** The [PurchaseCreditsCard] component *)
(* ================================================================== *)

Module PurchaseCreditsCard.
Import JsNum.

Definition USDC_PER_CREDIT : float64 := of_Z 1.
Definition presetUsdcAmounts : list float64 := map of_Z [10; 25; 50; 100].

Inductive WalletType : Type := external | circle.

Definition is_external (w : WalletType) : bool :=
  match w with
  | external => true
  | circle => false
  end.

(** ToBoolean on a value that is a string, [null] or [undefined]. *)
Definition present (v : option string) : bool :=
  match v with
  | Some s => JsString.truthy s
  | None => false
  end.

(** The values a render reads: the results of the wallet hooks and the
    component's own state.  The state of the confirmation modal and the two
    loading flags of the page-load fetches, which none of the derived values
    below reads, are left out. *)
Record State : Type := mkState {
  externalAddress : option string;
  isExternalConnected : bool;
  chainId : Z;
  usdcAddress : option string;
  externalBalance : option Z;
  hasExternalBalance : bool;
  isExternalBalanceLoading : bool;
  walletType : WalletType;
  creditsToPurchase : float64;
  isSubmitting : bool;
  selectedCircleWalletId : option string;
  circleBalance : option string;
  destination : option string
}.

(** [creditsToPurchase * USDC_PER_CREDIT]. *)
Definition requiredUsdc (creditsToPurchase : float64) : float64 :=
  mul creditsToPurchase USDC_PER_CREDIT.

(** [BigInt(Math.round(requiredUsdc * 1_000_000))]; [None] where [BigInt]
    throws, which aborts the render. *)
Definition requiredUsdcMicro (requiredUsdc : float64) : option Z :=
  BigInt (Math_round (mul requiredUsdc (of_Z 1000000))).

(** The memoised value, as a function of its dependency list. *)
Definition hasSufficientBalance (walletType : WalletType)
    (hasExternalBalance : bool) (externalBalance : option Z)
    (circleBalance : option string) (requiredUsdc : float64)
    (requiredUsdcMicro : Z) : bool :=
  match walletType with
  | external =>
      match hasExternalBalance, externalBalance with
      | true, Some balance => balance >=? requiredUsdcMicro
      | _, _ => false
      end
  | circle =>
      match circleBalance with
      | Some s =>
          if JsString.truthy s
          then ge (JsString.parseFloat s) requiredUsdc
          else false
      | None => false
      end
  end.

Definition isConnected (walletType : WalletType) (isExternalConnected : bool)
    (selectedCircleWalletId : option string) : bool :=
  match walletType with
  | external => isExternalConnected
  | circle => present selectedCircleWalletId
  end.

Definition buttonDisabled (isConnected hasSufficientBalance : bool)
    (creditsToPurchase : float64) (destination : option string)
    (walletType : WalletType) (usdcAddress : option string)
    (isSubmitting isExternalBalanceLoading : bool) : bool :=
  negb isConnected
  || negb hasSufficientBalance
  || le creditsToPurchase (of_Z 0)
  || negb (present destination)
  || (is_external walletType && negb (present usdcAddress))
  || isSubmitting
  || (is_external walletType && isExternalBalanceLoading).

(** What one render computes for the pay button. *)
Record View : Type := mkView {
  view_requiredUsdc : float64;
  view_requiredUsdcMicro : Z;
  view_hasSufficientBalance : bool;
  view_buttonDisabled : bool
}.

(** One render of the component; [None] when the render throws. *)
Definition render (st : State) : option View :=
  let required := requiredUsdc (creditsToPurchase st) in
  match requiredUsdcMicro required with
  | None => None
  | Some micro =>
      let sufficient :=
        hasSufficientBalance (walletType st) (hasExternalBalance st)
          (externalBalance st) (circleBalance st) required micro in
      let connected :=
        isConnected (walletType st) (isExternalConnected st)
          (selectedCircleWalletId st) in
      Some (mkView required micro sufficient
              (buttonDisabled connected sufficient (creditsToPurchase st)
                 (destination st) (walletType st) (usdcAddress st)
                 (isSubmitting st) (isExternalBalanceLoading st)))
  end.

Definition setIsSubmitting (b : bool) (st : State) : State :=
  mkState (externalAddress st) (isExternalConnected st) (chainId st)
    (usdcAddress st) (externalBalance st) (hasExternalBalance st)
    (isExternalBalanceLoading st) (walletType st) (creditsToPurchase st)
    b (selectedCircleWalletId st) (circleBalance st) (destination st).

Definition setWalletType (w : WalletType) (st : State) : State :=
  mkState (externalAddress st) (isExternalConnected st) (chainId st)
    (usdcAddress st) (externalBalance st) (hasExternalBalance st)
    (isExternalBalanceLoading st) w (creditsToPurchase st)
    (isSubmitting st) (selectedCircleWalletId st) (circleBalance st)
    (destination st).

Definition setCreditsToPurchase (x : float64) (st : State) : State :=
  mkState (externalAddress st) (isExternalConnected st) (chainId st)
    (usdcAddress st) (externalBalance st) (hasExternalBalance st)
    (isExternalBalanceLoading st) (walletType st) x
    (isSubmitting st) (selectedCircleWalletId st) (circleBalance st)
    (destination st).

Definition setSelectedCircleWalletId (w : option string) (st : State) : State :=
  mkState (externalAddress st) (isExternalConnected st) (chainId st)
    (usdcAddress st) (externalBalance st) (hasExternalBalance st)
    (isExternalBalanceLoading st) (walletType st) (creditsToPurchase st)
    (isSubmitting st) w (circleBalance st) (destination st).

Definition setCircleBalance (b : option string) (st : State) : State :=
  mkState (externalAddress st) (isExternalConnected st) (chainId st)
    (usdcAddress st) (externalBalance st) (hasExternalBalance st)
    (isExternalBalanceLoading st) (walletType st) (creditsToPurchase st)
    (isSubmitting st) (selectedCircleWalletId st) b (destination st).

Definition setDestination (d : option string) (st : State) : State :=
  mkState (externalAddress st) (isExternalConnected st) (chainId st)
    (usdcAddress st) (externalBalance st) (hasExternalBalance st)
    (isExternalBalanceLoading st) (walletType st) (creditsToPurchase st)
    (isSubmitting st) (selectedCircleWalletId st) (circleBalance st) d.

(** The results of the wallet hooks, which change under the component. *)
Record Hooks : Type := mkHooks {
  h_externalAddress : option string;
  h_isExternalConnected : bool;
  h_chainId : Z;
  h_usdcAddress : option string;
  h_externalBalance : option Z;
  h_hasExternalBalance : bool;
  h_isExternalBalanceLoading : bool
}.

Definition setHooks (h : Hooks) (st : State) : State :=
  mkState (h_externalAddress h) (h_isExternalConnected h) (h_chainId h)
    (h_usdcAddress h) (h_externalBalance h) (h_hasExternalBalance h)
    (h_isExternalBalanceLoading h) (walletType st) (creditsToPurchase st)
    (isSubmitting st) (selectedCircleWalletId st) (circleBalance st)
    (destination st).

(** What a handler does to the outside, up to its first [await]. *)
Inductive Effect : Type :=
| ToastError (title : string)
| WriteContractTransfer (token to : string) (value : Z)
| FetchCirclePayment (credits usdcAmount : float64).

(** The two effects that move money. *)
Definition is_dispatch (e : Effect) : bool :=
  match e with
  | ToastError _ => false
  | WriteContractTransfer _ _ _ | FetchCirclePayment _ _ => true
  end.

(** [handleExternalPurchase] up to the [await] of [writeContractAsync];
    the boolean tells whether the handler is now suspended on it. *)
Definition handleExternalPurchase (st : State) (v : View)
  : State * list Effect * bool :=
  if negb (isExternalConnected st) || negb (present (externalAddress st))
  then (st, [ToastError "Not connected"], false)
  else
    match destination st with
    | Some dest =>
        if JsString.truthy dest then
          match usdcAddress st with
          | Some usdc =>
              if JsString.truthy usdc then
                (setIsSubmitting true st,
                 [WriteContractTransfer usdc dest (view_requiredUsdcMicro v)],
                 true)
              else (st, [ToastError "Unsupported network"], false)
          | None => (st, [ToastError "Unsupported network"], false)
          end
        else (st, [ToastError "Configuration error"], false)
    | None => (st, [ToastError "Configuration error"], false)
    end.

(** [handleCirclePurchase] up to the [await] of [fetch]. *)
Definition handleCirclePurchase (st : State) (v : View)
  : State * list Effect * bool :=
  if negb (present (selectedCircleWalletId st))
  then (st, [ToastError "No Circle wallet selected"], false)
  else
    (setIsSubmitting true st,
     [FetchCirclePayment (creditsToPurchase st) (view_requiredUsdc v)],
     true).

(** The page between renders: the component's state and the number of
    handler invocations suspended between [setIsSubmitting(true)] and their
    [finally] block. *)
Record Page : Type := mkPage {
  ui : State;
  in_flight : nat
}.

(** What happens to a page.  The wallet toggle is offered whether or not
    custodial wallets were found, which allows more than the component. *)
Inductive Input : Type :=
| ClickPay
| Settle                                 (* a suspended handler runs to its [finally] *)
| ClickWalletType (w : WalletType)
| ChangeCredits (x : float64)            (* [x] is [Number(e.target.value)] *)
| ClickPreset (n : nat)                  (* the [n]-th preset button *)
| HooksChanged (h : Hooks)
| DestinationFetched (d : string)
| CircleWalletFetched (w : string)
| CircleBalanceFetched (b : string).

(** Modelled from the spec: the [Button] and [Input] components of
    [@/components/ui], whose sources are not among the files at hand.  The
    specification has a disabled control make a submit a no-op: a control
    rendered with [disabled] delivers no event, any other runs its handler. *)
Definition control_event {A : Type} (disabled : bool) (handler ignored : A) : A :=
  if disabled then ignored else handler.

(** A click on the pay button, whose [onClick] is the handler of the
    selected wallet and whose [disabled] is [buttonDisabled]; nothing is
    there to click when the render threw. *)
Definition click_pay (p : Page) : Page * list Effect :=
  match render (ui p) with
  | None => (p, [])
  | Some v =>
      control_event (view_buttonDisabled v)
        (let '(st, effs, suspended) :=
           match walletType (ui p) with
           | external => handleExternalPurchase (ui p) v
           | circle => handleCirclePurchase (ui p) v
           end in
         (mkPage st (if suspended then S (in_flight p) else in_flight p), effs))
        (p, [])
  end.

Definition step (p : Page) (i : Input) : Page * list Effect :=
  match i with
  | ClickPay => click_pay p
  | Settle =>
      match in_flight p with
      | O => (p, [])
      | S n => (mkPage (setIsSubmitting false (ui p)) n, [])
      end
  | ClickWalletType w => (mkPage (setWalletType w (ui p)) (in_flight p), [])
  | ChangeCredits x =>
      control_event (isSubmitting (ui p))
        (mkPage (setCreditsToPurchase (Math_max0 x) (ui p)) (in_flight p), [])
        (p, [])
  | ClickPreset n =>
      match nth_error presetUsdcAmounts n with
      | Some amount =>
          control_event (isSubmitting (ui p))
            (mkPage (setCreditsToPurchase (div amount USDC_PER_CREDIT) (ui p))
                    (in_flight p), [])
            (p, [])
      | None => (p, [])
      end
  | HooksChanged h => (mkPage (setHooks h (ui p)) (in_flight p), [])
  | DestinationFetched d =>
      (mkPage (setDestination (Some d) (ui p)) (in_flight p), [])
  | CircleWalletFetched w =>
      (mkPage (setWalletType circle (setSelectedCircleWalletId (Some w) (ui p)))
              (in_flight p), [])
  | CircleBalanceFetched b =>
      (mkPage (setCircleBalance (Some b) (ui p)) (in_flight p), [])
  end.

(** The page reached and the effects issued along a sequence of inputs. *)
Fixpoint run (p : Page) (inputs : list Input) : Page * list Effect :=
  match inputs with
  | [] => (p, [])
  | i :: rest =>
      let '(p', effs) := step p i in
      let '(p'', effs') := run p' rest in
      (p'', (effs ++ effs')%list)
  end.

(** The number of transfers among the effects. *)
Definition dispatches (effs : list Effect) : nat :=
  List.length (filter is_dispatch effs).

Definition is_settle (i : Input) : bool :=
  match i with
  | Settle => true
  | _ => false
  end.

(** No handler reaches its [finally] block during these inputs. *)
Definition unsettled (inputs : list Input) : bool :=
  forallb (fun i => negb (is_settle i)) inputs.

(** The destination is not fetched during these inputs. *)
Definition unresolved (inputs : list Input) : bool :=
  forallb (fun i => match i with
                    | DestinationFetched _ => false
                    | _ => true
                    end) inputs.

(** The first render: [useState] initial values over given hook results. *)
Definition initial (h : Hooks) : Page :=
  mkPage (mkState (h_externalAddress h) (h_isExternalConnected h) (h_chainId h)
            (h_usdcAddress h) (h_externalBalance h) (h_hasExternalBalance h)
            (h_isExternalBalanceLoading h) external (of_Z 10) false
            None None None)
         0.

(** *** Concrete pages, for the examples *)

(** A connected external wallet holding 25 USDC on a chain with USDC. *)
Definition demo_hooks : Hooks :=
  mkHooks (Some "0xa11ce") true 5042002 (Some "0x3600") (Some 25000000) true false.

(** The first render: the destination has not been fetched yet. *)
Definition fresh_page : Page := initial demo_hooks.

(** The page once the destination is known: the pay button is enabled. *)
Definition ready_page : Page :=
  fst (run fresh_page [DestinationFetched "0x7ea5"]).

(** The page after one click on the enabled pay button. *)
Definition submitting_page : Page := fst (run ready_page [ClickPay]).

(** A custodial wallet selected, with a balance string from the balance
    route. *)
Definition custodial_page : Page :=
  fst (run ready_page [CircleWalletFetched "wallet-1"; CircleBalanceFetched "100.00"]).

(** Repeated clicks, with a change of wallet in between. *)
Definition impatient_clicks : list Input :=
  [ClickPay; ClickPay; ClickWalletType circle; ClickPay].

End PurchaseCreditsCard.


(* ================================================================== *)
(** ** The wallets route: [GET /api/user-wallets] *)
(* ================================================================== *)

Module UserWalletsRoute.
Import Platform.

(** A row of the [wallets] table as the route selects it; [type] and
    [name] may be null. *)
Record WalletEntry : Type := mkWalletEntry {
  entry_id : string;
  entry_circle_wallet_id : string;
  entry_blockchain : string;
  entry_address : string;
  entry_type : option string;
  entry_name : option string
}.

Inductive WalletsEvent : Type :=
| WsGetUser
| WsSelectWallets (uid : string)
| WsConsoleError (text : string).

Inductive WalletsBody : Type :=
| WsError (error : ErrorText)
| WsWallets (wallets : list WalletEntry).

Record WalletsResponse : Type := mkWalletsResponse {
  wallets_status : Z;
  wallets_body : WalletsBody
}.

(** The session and the one query the route makes. *)
Record WalletsEnv : Type := mkWalletsEnv {
  ws_getUser : AuthResult;
  ws_select_wallets : string -> QueryResult (list WalletEntry)
}.

(** [wallets || []]. *)
Definition wallets_or_empty (data : option (list WalletEntry)) : list WalletEntry :=
  match data with
  | Some ws => ws
  | None => []
  end.

(** The route: 401 without a session; the query's error is thrown and
    caught as a 500; otherwise the rows, 200. *)
Definition GET (env : WalletsEnv) : list WalletsEvent * WalletsResponse :=
  let auth := ws_getUser env in
  match auth_error auth, auth_user auth with
  | None, Some user =>
      let result := ws_select_wallets env (uid user) in
      match q_error result with
      | Some message =>
          ([WsGetUser; WsSelectWallets (uid user);
            WsConsoleError "Error fetching user wallets:"],
           mkWalletsResponse 500
             (WsError (message_or (JsError message) "Failed to fetch wallets")))
      | None =>
          ([WsGetUser; WsSelectWallets (uid user)],
           mkWalletsResponse 200 (WsWallets (wallets_or_empty (q_data result))))
      end
  | _, _ => ([WsGetUser], mkWalletsResponse 401 (WsError (Lit "Unauthorized")))
  end.

End UserWalletsRoute.

(* ================================================================== *)
(** ** The choice of a custodial wallet in the two components *)
(* ================================================================== *)

Module WalletSelection.
Import UserWalletsRoute.

(** [toLowerCase] on one code unit below 256: the letters A to Z and the
    accented capitals from U+00C0 to U+00DE, the sign U+00D7 apart. *)
Definition lower_unit (c : ascii) : ascii :=
  let n := N_of_ascii c in
  if (((65 <=? n) && (n <=? 90))
      || ((192 <=? n) && (n <=? 222) && negb (n =? 215)))%N%bool
  then ascii_of_N (n + 32)
  else c.

Fixpoint toLowerCase (s : string) : string :=
  match s with
  | EmptyString => EmptyString
  | String c r => String (lower_unit c) (toLowerCase r)
  end.

(** [w.type?.toLowerCase() === 'sca']. *)
Definition is_sca (w : WalletEntry) : bool :=
  match entry_type w with
  | Some t => String.eqb (toLowerCase t) "sca"
  | None => false
  end.

(** [wallets.find(w => w.type?.toLowerCase() === 'sca') || wallets[0]];
    [None] stands for the [undefined] an empty list gives. *)
Definition scaWallet (wallets : list WalletEntry) : option WalletEntry :=
  match find is_sca wallets with
  | Some w => Some w
  | None => hd_error wallets
  end.

(** [response.ok]. *)
Definition response_ok (status : Z) : bool := (200 <=? status) && (status <=? 299).

(** [fetchCircleWallets] of [PurchaseCreditsCard] on the reply of the
    wallets route: the input it makes of it, none when the reply is not ok
    or lists no wallet. *)
Definition fetchCircleWallets (reply : WalletsResponse)
  : option PurchaseCreditsCard.Input :=
  if response_ok (wallets_status reply) then
    match wallets_body reply with
    | WsWallets wallets =>
        match scaWallet wallets with
        | Some w => Some (PurchaseCreditsCard.CircleWalletFetched
                            (entry_circle_wallet_id w))
        | None => None
        end
    | WsError _ => None
    end
  else None.

End WalletSelection.

(* ================================================================== *)
(** ** The [CircleWalletBalance] component *)
(* ================================================================== *)

Module CircleWalletBalance.
Import JsNum Platform UserWalletsRoute WalletSelection.

Record State : Type := mkState {
  wallets : list WalletEntry;
  balance : option string;
  isLoading : bool;
  error : option ErrorText
}.

(** The [useState] initial values. *)
Definition initial : State := mkState [] None false None.

(** [fetchWallets], from [setIsLoading(true)] to the [finally] block, on
    the reply of the wallets route ([None] when the fetch or the parsing of
    its body throws); with the state it leaves, the wallet id for which
    [fetchBalance] has been started, if any. *)
Definition fetchWallets (reply : option WalletsResponse) (st : State)
  : State * option string :=
  match reply with
  | None =>
      (mkState (wallets st) (balance st) false (Some (Lit "Failed to fetch wallets")),
       None)
  | Some r =>
      if response_ok (wallets_status r) then
        match wallets_body r with
        | WsWallets (w :: ws) =>
            (mkState (w :: ws) (balance st) false (error st),
             match scaWallet (w :: ws) with
             | Some chosen => Some (entry_circle_wallet_id chosen)
             | None => None
             end)
        | _ =>
            (mkState (wallets st) (balance st) false
                     (Some (Lit "No Circle wallet found")),
             None)
        end
      else (mkState (wallets st) (balance st) false (error st), None)
  end.

(** [data.error] of a reply of the balance route. *)
Definition reply_error (b : Body) : option ErrorText :=
  match b with
  | BError e => Some e
  | _ => None
  end.

(** [data.balance] of a reply of the balance route. *)
Definition reply_balance (b : Body) : option string :=
  match b with
  | BBalance amount _ => Some amount
  | _ => None
  end.

(** [fetchBalance] on the reply of the balance route. *)
Definition fetchBalance (reply : option Response) (st : State) : State :=
  match reply with
  | None =>
      mkState (wallets st) (balance st) (isLoading st)
              (Some (Lit "Failed to fetch balance"))
  | Some r =>
      if response_ok (http_status r)
      then mkState (wallets st) (reply_balance (body r)) (isLoading st) (error st)
      else mkState (wallets st) (balance st) (isLoading st) (reply_error (body r))
  end.

(** ToBoolean on the [error] state: a string that is not empty. *)
Definition error_shown (e : option ErrorText) : bool :=
  match e with
  | Some (Lit s) => JsString.truthy s
  | Some (EngineMessage _) => true
  | None => false
  end.

(** What the component renders; [Fixed2 x] stands for the text
    [x.toFixed(2)], which is not spelled out. *)
Inductive Amount : Type :=
| Fixed2 (x : float64)
| ZeroLiteral.

Inductive Display : Type :=
| Checking
| ErrorLine (e : option ErrorText)
| Nothing
| Badge (amount : Amount).

Definition render (st : State) : Display :=
  if isLoading st then Checking
  else if error_shown (error st) then ErrorLine (error st)
  else match wallets st with
       | [] => Nothing
       | _ :: _ =>
           Badge (match balance st with
                  | Some b =>
                      if JsString.truthy b then Fixed2 (JsString.parseFloat b)
                      else ZeroLiteral
                  | None => ZeroLiteral
                  end)
       end.

End CircleWalletBalance.

(* ================================================================== *)
(** ** [PurchaseCreditsCard]: notices and the handlers after their await *)
(* ================================================================== *)

Module PurchaseFollowUp.
Import JsNum Js Platform PurchaseCreditsCard WalletSelection.

(** The line under the amount on the custodial path. *)
Inductive CircleNotice : Type :=
| CircleLoading
| CircleBalanceLine (shown : float64) (insufficient : bool)
| CircleBalanceUnavailable.

Definition circle_notice (isCircleLoading : bool) (circleBalance : option string)
    (requiredUsdc : float64) : CircleNotice :=
  if isCircleLoading then CircleLoading
  else match circleBalance with
       | Some b =>
           CircleBalanceLine (JsString.parseFloat b)
                             (lt (JsString.parseFloat b) requiredUsdc)
       | None => CircleBalanceUnavailable
       end.

(** Whether "Insufficient MetaMask balance." is shown on the external path. *)
Definition external_notice (hasSufficientBalance isExternalConnected
    isExternalBalanceLoading : bool) : bool :=
  negb hasSufficientBalance && isExternalConnected
  && negb isExternalBalanceLoading.

(** The object given to [setCurrentTransaction]; its [createdAt], the time
    of the call, is left out. *)
Record Confirmation : Type := mkConfirmation {
  conf_id : JsVal;
  conf_credits : float64;
  conf_usdcAmount : float64;
  conf_txHash : string;
  conf_chainId : Z;
  conf_status : string
}.

(** The body of the request to [/api/transactions]. *)
Record PersistBody : Type := mkPersistBody {
  persist_credits : float64;
  persist_usdcAmount : float64;
  persist_txHash : string;
  persist_chainId : Z;
  persist_walletAddress : option string;
  persist_destinationAddress : option string
}.

(** What a handler does after its first [await]. *)
Inductive FollowUp : Type :=
| ToastSuccess (title : string)
| ToastFailure (title : string) (description : ErrorText)
| PersistTransaction (b : PersistBody)
| ShowConfirmation (tx : Confirmation).

(** ToBoolean on the text of an [error] field. *)
Definition text_truthy (e : ErrorText) : bool :=
  match e with
  | Lit s => JsString.truthy s
  | EngineMessage _ => true
  end.

(** [data.error || "Failed to process Circle payment"]. *)
Definition payment_error (b : Body) : ErrorText :=
  match b with
  | BError e => if text_truthy e then e else Lit "Failed to process Circle payment"
  | _ => Lit "Failed to process Circle payment"
  end.

(** [data.transactionId]. *)
Definition payment_transaction_id (b : Body) : JsVal :=
  match b with
  | BPayment _ transactionId _ => transactionId
  | _ => JUndefined
  end.

(** The rest of [handleCirclePurchase], with the state and the view of the
    render the click came from: [reply] is the reply of the payment route,
    or the message of what [fetch] or [response.json()] threw. *)
Definition handleCirclePurchase_resume (st : State) (v : View)
    (reply : string + Response) : list FollowUp :=
  match reply with
  | inl message => [ToastFailure "Payment failed" (Lit message)]
  | inr r =>
      if response_ok (http_status r) then
        [ToastSuccess "Circle payment initiated!";
         ShowConfirmation
           (mkConfirmation (payment_transaction_id (body r))
              (creditsToPurchase st) (view_requiredUsdc v) "pending"
              (chainId st) "pending")]
      else [ToastFailure "Payment failed" (payment_error (body r))]
  end.

(** What [writeContractAsync] settles with: the transaction hash, or an
    error, with its [shortMessage] when it is a [BaseError]. *)
Inductive WalletResult : Type :=
| WalletRejected (shortMessage : option string)
| WalletSubmitted (txHash : string).

(** What the request to [/api/transactions] settles with: a rejection of
    the [fetch]; a reply that is not ok, with the [error] of its body if it
    parses and has one; an ok reply, with its body if it parses, holding a
    [transactionId] or not. *)
Inductive PersistResult : Type :=
| PersistThrows
| PersistRefused (error : option string)
| PersistAccepted (parsed : option (option string)).

(** The message of the [catch] clause of [handleExternalPurchase]. *)
Definition external_failure (shortMessage : option string) : ErrorText :=
  match shortMessage with
  | Some m => Lit m
  | None => Lit "Transaction failed unexpectedly."
  end.

(** [j.error || "Could not record transaction."]. *)
Definition recording_error (error : option string) : ErrorText :=
  match error with
  | Some e => if JsString.truthy e then Lit e else Lit "Could not record transaction."
  | None => Lit "Could not record transaction."
  end.

(** [responseData.transactionId || txHash]. *)
Definition confirmation_id (transactionId : option string) (txHash : string) : JsVal :=
  match transactionId with
  | Some t => if JsString.truthy t then JStr t else JStr txHash
  | None => JStr txHash
  end.

(** The rest of [handleExternalPurchase], with the state and the view of
    the render the click came from.  Errors thrown after the hash was
    obtained are not [BaseError]s of the wallet library. *)
Definition handleExternalPurchase_resume (st : State) (v : View)
    (wallet : WalletResult) (persist : PersistResult) : list FollowUp :=
  match wallet with
  | WalletRejected short =>
      [ToastFailure "Transaction error" (external_failure short)]
  | WalletSubmitted txHash =>
      let request :=
        PersistTransaction
          (mkPersistBody (creditsToPurchase st) (view_requiredUsdc v) txHash
                         (chainId st) (externalAddress st) (destination st)) in
      ToastSuccess "Transaction submitted" :: request ::
      match persist with
      | PersistThrows =>
          [ToastFailure "Transaction error" (external_failure None)]
      | PersistRefused error =>
          [ToastFailure "Recording failed" (recording_error error)]
      | PersistAccepted None =>
          [ToastFailure "Transaction error" (external_failure None)]
      | PersistAccepted (Some transactionId) =>
          [ShowConfirmation
             (mkConfirmation (confirmation_id transactionId txHash)
                (creditsToPurchase st) (view_requiredUsdc v) txHash
                (chainId st) "pending")]
      end
  end.

Definition shows_confirmation (f : FollowUp) : bool :=
  match f with
  | ShowConfirmation _ => true
  | _ => false
  end.

Definition is_persist (f : FollowUp) : bool :=
  match f with
  | PersistTransaction _ => true
  | _ => false
  end.

End PurchaseFollowUp.

(* ================================================================== *)
(** ** Counting the calls in a trace *)
(* ================================================================== *)

Module TraceCount.
Import Platform.

Definition is_listing (ev : Event) : bool :=
  match ev with
  | EvGetWalletTokenBalance _ => true
  | _ => false
  end.

Definition is_create (ev : Event) : bool :=
  match ev with
  | EvCreateTransaction _ => true
  | _ => false
  end.

Definition is_insert (ev : Event) : bool :=
  match ev with
  | EvInsertTransaction _ => true
  | _ => false
  end.

(** The number of events of a kind in a trace. *)
Definition count (kind : Event -> bool) (t : list Event) : nat :=
  List.length (filter kind t).

End TraceCount.

(* ================================================================== *)
(** ** Further deployments, for the examples *)
(* ================================================================== *)

Module Scenarios.
Import JsNum Js Platform PaymentRoute.

(** The deployment [paying_env] with one component replaced. *)
Definition with_session (a : AuthResult) (env : Env) : Env :=
  {| getUser := a;
     request_body := request_body env;
     select_sca_wallet := select_sca_wallet env;
     select_recent_wallet := select_recent_wallet env;
     select_admin_wallet := select_admin_wallet env;
     getWalletTokenBalance := getWalletTokenBalance env;
     CIRCLE_USDC_TOKEN_ID := CIRCLE_USDC_TOKEN_ID env;
     createTransaction := createTransaction env;
     insert_transaction := insert_transaction env |}.


Definition with_provider (balances : SdkResult BalancesResponse)
    (created : SdkResult CreateTxResponse) (env : Env) : Env :=
  {| getUser := getUser env;
     request_body := request_body env;
     select_sca_wallet := select_sca_wallet env;
     select_recent_wallet := select_recent_wallet env;
     select_admin_wallet := select_admin_wallet env;
     getWalletTokenBalance := fun _ => balances;
     CIRCLE_USDC_TOKEN_ID := CIRCLE_USDC_TOKEN_ID env;
     createTransaction := fun _ => created;
     insert_transaction := insert_transaction env |}.

Definition signed_out_env : Env :=
  with_session (mkAuth None (Some "Auth session missing!")) paying_env.




(** A provider that rejects the transfer. *)
Definition rejecting_env : Env :=
  with_provider (listing [other_entry; usdc_entry "250.5"])
                (SdkThrows (JsError "insufficient funds")) paying_env.

(** A wallet whose USDC entry declares one decimal. *)
Definition one_decimal_entry : TokenBalance :=
  mkTokenBalance (Some (mkToken (Some "usdc-token") (Some (of_Z 1)) (Some "USDC")))
                 "250.5".

Definition one_decimal_env : Env :=
  demo_env (BodyFields (JNum (of_Z 100)) (JNum (of_Z 100))) [one_decimal_entry].

(** A body whose [usdcAmount] is a string that is not a number. *)
Definition garbled_env : Env :=
  demo_env (BodyFields (JNum (of_Z 100)) (JStr "ten")) [usdc_entry "250.5"].

(** A body asking for 100 credits against minus one USDC. *)
Definition negative_env : Env :=
  demo_env (BodyFields (JNum (of_Z 100)) (JNum (of_Z (-1)))) [usdc_entry "250.5"].

Definition negative_request : CreateTxReq :=
  transfer_request alice_wallet treasury "-1000000" (Some "usdc-token").

(** A listing with two entries for the USDC token id. *)
Definition doubled_env : Env :=
  demo_env (BodyFields (JNum (of_Z 100)) (JNum (of_Z 100)))
           [other_entry; usdc_entry "12.5"; usdc_entry "99"].

End Scenarios.

Module CardScenarios.
Import JsNum PurchaseCreditsCard.

(** The view of the render of [ready_page]: 10 credits, 10 USDC, enabled. *)
Definition ready_view : View := mkView (of_Z 10) 10000000 true false.

(** The view of the render of [custodial_page]. *)
Definition custodial_view : View := mkView (of_Z 10) 10000000 true false.

(** The custodial page before its balance has been fetched. *)
Definition custodial_waiting_page : Page :=
  fst (run ready_page [CircleWalletFetched "wallet-1"]).

End CardScenarios.

Module WalletScenarios.
Import Platform UserWalletsRoute.

Definition eoa_entry : WalletEntry :=
  mkWalletEntry "1" "wallet-eoa" "ARC-TESTNET" "0xe0a" (Some "EOA") (Some "first").

Definition sca_entry : WalletEntry :=
  mkWalletEntry "2" "wallet-sca" "ARC-TESTNET" "0x5ca" (Some "Sca") None.

Definition later_sca_entry : WalletEntry :=
  mkWalletEntry "3" "wallet-sca-2" "ARC-TESTNET" "0x5cb" (Some "SCA") None.

Definition untyped_entry : WalletEntry :=
  mkWalletEntry "4" "wallet-x" "ARC-TESTNET" "0x000" None None.

(** A session whose user has three wallet rows, the second and third SCA. *)
Definition three_wallets_env : WalletsEnv :=
  mkWalletsEnv (mkAuth (Some (mkUser "user-1")) None)
               (fun _ => mkQuery (Some [eoa_entry; sca_entry; later_sca_entry]) None).

End WalletScenarios.

(* ================================================================== *)
(** * Properties *)
(* ================================================================== *)

Import JsNum Js Platform.

Ltac case_split :=
  match goal with
  | |- context [match ?x with _ => _ end] =>
      lazymatch x with
      | context [match _ with _ => _ end] => fail
      | _ => destruct x eqn:?
      end
  | H : context [match ?x with _ => _ end] |- _ =>
      lazymatch x with
      | context [match _ with _ => _ end] => fail
      | _ => destruct x eqn:?
      end
  end.

Ltac run_handler :=
  unfold bind, call, call_sdk, early, ret, emit, throw in *;
  repeat (case_split; cbn [fst snd app] in * ).

(** Splits a membership in a concatenation or a literal list into cases. *)
Ltac split_in H :=
  repeat match type of H with
         | In _ (_ ++ _) => apply in_app_or in H; destruct H as [H|H]
         | In _ (_ :: _) => destruct H as [H|H]
         | In _ [] => destruct H
         | _ \/ _ => destruct H as [H|H]
         | False => destruct H
         end.

(** ** Traces of the payment route *)

Section PaymentTraces.
Import PaymentRoute.

Lemma try_catch_trace (m : M Response) text fallback :
  fst (try_catch m text fallback) = (fst m ++ catch_log (snd m) text)%list.
Proof.
  destruct m as [t [r|r|e]]; cbn; now rewrite ?app_nil_r.
Qed.

Lemma bind_trace {A B} (m : M A) (k : A -> M B) t a :
  m = (t, Normal a) -> fst (bind m k) = (t ++ fst (k a))%list.
Proof.
  intros ->. cbn. now destruct (k a).
Qed.

Lemma bind_outcome {A B} (m : M A) (k : A -> M B) t a :
  m = (t, Normal a) -> snd (bind m k) = snd (k a).
Proof.
  intros ->. cbn. now destruct (k a).
Qed.

Lemma resolve_parties_events env t o :
  resolve_parties env = (t, o) -> forallb guard_event t = true.
Proof.
  unfold resolve_parties. intros H. run_handler.
  all: inversion H; subst; reflexivity.
Qed.

Lemma guard_only pre ev :
  forallb guard_event pre = true -> In ev pre -> guard_event ev = true.
Proof.
  intros Hall Hin. rewrite forallb_forall in Hall. now apply Hall.
Qed.

Lemma dispatch_only t ev :
  forallb dispatch_event t = true -> In ev t -> dispatch_event ev = true.
Proof.
  intros Hall Hin. rewrite forallb_forall in Hall. now apply Hall.
Qed.

Lemma find_usdc_absent response t :
  ~ lists_token response t -> find_usdc response (Some t) = None.
Proof.
  intros Habs. unfold find_usdc.
  destruct (balances_data response) as [d|] eqn:Hd; [|reflexivity].
  destruct (tokenBalances d) as [tbs|] eqn:Htbs; [|reflexivity].
  destruct (find _ tbs) as [tb|] eqn:Hf; [|reflexivity].
  exfalso. apply Habs. apply find_some in Hf. destruct Hf as [Hin Heq].
  exists d, tbs, tb. repeat split; try assumption.
  unfold strict_eq in Heq. destruct (tb_token_id tb) as [x|]; [|discriminate].
  apply String.eqb_eq in Heq. now subst.
Qed.

(** The transfer step when the token entry is missing. *)
Lemma transfer_token_absent env p resp :
  getWalletTokenBalance env (circle_wallet_id (userWallet p)) = SdkReturns resp ->
  find_usdc resp (CIRCLE_USDC_TOKEN_ID env) = None ->
  transfer env p =
    ([EvGetWalletTokenBalance (circle_wallet_id (userWallet p));
      EvConsole LogError "[CRITICAL] USDC Token ID not found in wallet"],
     Returned (json_error "USDC balance not found in wallet." 400)).
Proof.
  intros Hget Hfind. unfold transfer. rewrite Hget. cbn.
  rewrite Hfind. reflexivity.
Qed.

Lemma dispatch_and_record_events env u w a c m tok t o :
  dispatch_and_record env u w a c m tok = (t, o) ->
  forallb dispatch_event t = true.
Proof.
  unfold dispatch_and_record, debug_logs. intros H. run_handler.
  all: inversion H; subst; reflexivity.
Qed.

(** The events of the transfer step: the listing is read once, first. *)
Lemma transfer_events env p t o :
  transfer env p = (t, o) ->
  exists t', t = EvGetWalletTokenBalance (circle_wallet_id (userWallet p)) :: t'
             /\ forallb dispatch_event t' = true.
Proof.
  unfold transfer. intros H.
  destruct (getWalletTokenBalance env (circle_wallet_id (userWallet p)))
    as [e|resp]; cbn in H.
  - inversion H; subst. now exists [].
  - destruct (find_usdc resp (CIRCLE_USDC_TOKEN_ID env)) as [tok|].
    + destruct (dispatch_and_record env (user p) (userWallet p) (adminWallet p)
                  (credits p) (usdcAmount p) tok) as [t' o'] eqn:Hd.
      inversion H; subst. exists t'. split; [reflexivity|].
      eapply dispatch_and_record_events; eassumption.
    + cbn in H. inversion H; subst. eexists; split; reflexivity.
Qed.

(** The trace of the route splits into the events of steps 0 to 2, those of
    the transfer step, and the log of the [catch] clause. *)
Lemma POST_trace env pre p :
  resolve_parties env = (pre, Normal p) ->
  fst (POST env) =
    (pre ++ fst (transfer env p)
         ++ catch_log (snd (transfer env p)) "Circle payment error:")%list.
Proof.
  intros Hres. unfold POST, POST_try. rewrite try_catch_trace.
  rewrite (bind_trace _ _ _ _ Hres), (bind_outcome _ _ _ _ Hres).
  now rewrite app_assoc.
Qed.

Lemma POST_stopped env pre o ev :
  resolve_parties env = (pre, o) ->
  (forall p, o <> Normal p) ->
  In ev (fst (POST env)) -> guard_event ev = true \/ exists l t, ev = EvConsole l t.
Proof.
  intros Hres Hstop Hin. unfold POST, POST_try in Hin. rewrite Hres in Hin.
  pose proof (resolve_parties_events _ _ _ Hres) as Hpre.
  destruct o as [p|r|e]; [now elim (Hstop p)| |]; cbn in Hin.
  - left. eapply guard_only; eassumption.
  - split_in Hin.
    + left. eapply guard_only; eassumption.
    + right. eauto.
Qed.

(** A request whose trace shows the listing of [w] being read has passed
    steps 0 to 2 with [w] as the user's wallet. *)
Lemma POST_reaches_listing env w :
  In (EvGetWalletTokenBalance w) (fst (POST env)) ->
  exists pre p,
    resolve_parties env = (pre, Normal p) /\
    forallb guard_event pre = true /\
    circle_wallet_id (userWallet p) = w.
Proof.
  intros Hin.
  destruct (resolve_parties env) as [pre o] eqn:Hres.
  pose proof (resolve_parties_events _ _ _ Hres) as Hpre.
  destruct o as [p|r|e].
  - exists pre, p. repeat split; try assumption.
    rewrite (POST_trace _ _ _ Hres) in Hin.
    destruct (transfer env p) as [t o] eqn:Ht.
    destruct (transfer_events _ _ _ _ Ht) as [t' [-> Ht']].
    cbn [fst snd] in Hin. split_in Hin.
    + apply (guard_only _ _ Hpre) in Hin. discriminate.
    + congruence.
    + apply (dispatch_only _ _ Ht') in Hin. discriminate.
    + destruct o; unfold catch_log in Hin; split_in Hin; discriminate.
  - eapply POST_stopped in Hin; [|eassumption|congruence].
    destruct Hin as [Hin|[l [t Hin]]]; discriminate.
  - eapply POST_stopped in Hin; [|eassumption|congruence].
    destruct Hin as [Hin|[l [t Hin]]]; discriminate.
Qed.

(** A transfer call in the trace of steps 3 and 4 carries the converted
    amount. *)
Lemma dispatch_and_record_create env u w a c m tok t o req :
  dispatch_and_record env u w a c m tok = (t, o) ->
  In (EvCreateTransaction req) t ->
  exists atoms,
    amountInSmallestUnit m (decimals_of tok) = inr atoms /\
    req = transfer_request w a atoms (CIRCLE_USDC_TOKEN_ID env).
Proof.
  unfold dispatch_and_record, debug_logs. intros H Hin.
  destruct (amountInSmallestUnit m (decimals_of tok)) as [e|atoms] eqn:Hamt.
  - cbn in H. inversion H; subst. destruct Hin.
  - exists atoms. split; [reflexivity|].
    run_handler; inversion H; subst; clear H; split_in Hin;
      solve [discriminate | congruence].
Qed.

(** Steps 3 and 4 when the conversion succeeds and the provider returns an
    id: the record is inserted, and the response is a success whatever the
    insert resolves to. *)
Lemma dispatch_and_record_ok env u w a c m tok atoms d :
  amountInSmallestUnit m (decimals_of tok) = inr atoms ->
  createTransaction env (transfer_request w a atoms (CIRCLE_USDC_TOKEN_ID env))
    = SdkReturns (mkCreateTxResponse (Some d)) ->
  JsString.truthy (created_id d) = true ->
  let record := transaction_record u w c m (created_id d) in
  let inserted := insert_transaction env record in
  dispatch_and_record env u w a c m tok =
    ((debug_events
        ++ [EvCreateTransaction
              (transfer_request w a atoms (CIRCLE_USDC_TOKEN_ID env));
            EvInsertTransaction record]
        ++ insert_failure_log inserted)%list,
     Normal (json_ok (BPayment true
                        (returned_transaction_id (q_data inserted) (created_id d))
                        (created_id d)))).
Proof.
  intros Hamt Hcreate Hid record inserted.
  unfold dispatch_and_record. rewrite Hamt. cbn.
  rewrite Hcreate. cbn. rewrite Hid. cbn.
  fold record. fold inserted. unfold insert_failure_log.
  destruct (q_error inserted); reflexivity.
Qed.

(** What a request has gone through when its trace shows a transfer call. *)
Lemma POST_reaches_dispatch env req :
  In (EvCreateTransaction req) (fst (POST env)) ->
  exists pre p resp tok atoms,
    resolve_parties env = (pre, Normal p) /\
    forallb guard_event pre = true /\
    getWalletTokenBalance env (circle_wallet_id (userWallet p)) = SdkReturns resp /\
    find_usdc resp (CIRCLE_USDC_TOKEN_ID env) = Some tok /\
    amountInSmallestUnit (usdcAmount p) (decimals_of tok) = inr atoms /\
    req = transfer_request (userWallet p) (adminWallet p) atoms
            (CIRCLE_USDC_TOKEN_ID env).
Proof.
  intros Hin.
  destruct (resolve_parties env) as [pre o] eqn:Hres.
  pose proof (resolve_parties_events _ _ _ Hres) as Hpre.
  destruct o as [p|r|e].
  - rewrite (POST_trace _ _ _ Hres) in Hin.
    assert (Hin' : In (EvCreateTransaction req) (fst (transfer env p))).
    { split_in Hin.
      - apply (guard_only _ _ Hpre) in Hin. discriminate.
      - exact Hin.
      - destruct (snd (transfer env p)); unfold catch_log in Hin;
          split_in Hin; discriminate. }
    clear Hin. unfold transfer in Hin'.
    destruct (getWalletTokenBalance env (circle_wallet_id (userWallet p)))
      as [e|resp] eqn:Hget; cbn in Hin'.
    + split_in Hin'. discriminate.
    + destruct (find_usdc resp (CIRCLE_USDC_TOKEN_ID env)) as [tok|] eqn:Hfind.
      * destruct (dispatch_and_record env (user p) (userWallet p)
                    (adminWallet p) (credits p) (usdcAmount p) tok)
          as [t o] eqn:Hd.
        cbn in Hin'. destruct Hin' as [Hin'|Hin']; [discriminate|].
        destruct (dispatch_and_record_create _ _ _ _ _ _ _ _ _ _ Hd Hin')
          as [atoms [Hamt Hreq]].
        exists pre, p, resp, tok, atoms. repeat split; assumption.
      * cbn in Hin'. split_in Hin'; discriminate.
  - eapply POST_stopped in Hin; [|eassumption|congruence].
    destruct Hin as [Hin|[l [t Hin]]]; discriminate.
  - eapply POST_stopped in Hin; [|eassumption|congruence].
    destruct Hin as [Hin|[l [t Hin]]]; discriminate.
Qed.

(** The whole route on a request that reaches the provider and gets an id. *)
Lemma POST_dispatched env pre p resp tok atoms d :
  resolve_parties env = (pre, Normal p) ->
  getWalletTokenBalance env (circle_wallet_id (userWallet p)) = SdkReturns resp ->
  find_usdc resp (CIRCLE_USDC_TOKEN_ID env) = Some tok ->
  amountInSmallestUnit (usdcAmount p) (decimals_of tok) = inr atoms ->
  createTransaction env
    (transfer_request (userWallet p) (adminWallet p) atoms (CIRCLE_USDC_TOKEN_ID env))
    = SdkReturns (mkCreateTxResponse (Some d)) ->
  JsString.truthy (created_id d) = true ->
  let record :=
    transaction_record (user p) (userWallet p) (credits p) (usdcAmount p)
                       (created_id d) in
  let inserted := insert_transaction env record in
  POST env =
    ((pre ++ EvGetWalletTokenBalance (circle_wallet_id (userWallet p))
          :: debug_events
          ++ [EvCreateTransaction
                (transfer_request (userWallet p) (adminWallet p) atoms
                                  (CIRCLE_USDC_TOKEN_ID env));
              EvInsertTransaction record]
          ++ insert_failure_log inserted)%list,
     json_ok (BPayment true
                (returned_transaction_id (q_data inserted) (created_id d))
                (created_id d))).
Proof.
  intros Hres Hget Hfind Hamt Hcreate Hid record inserted.
  unfold POST, POST_try. rewrite Hres. unfold bind, transfer.
  rewrite Hget. cbn. rewrite Hfind.
  rewrite (dispatch_and_record_ok _ _ _ _ _ _ _ _ _ Hamt Hcreate Hid).
  reflexivity.
Qed.

End PaymentTraces.

(** ** C1: the amount conversion of the payment route *)

Section Conversion.
Import PaymentRoute.

(** The two examples of the specification: 10.00 and 25.50 at 6 decimals. *)
Lemma amountAtoms_examples :
  amountAtoms (JStr "10.00") (of_Z 6) = inr 10000000 /\
  amountAtoms (two_digit_amount 1000) (of_Z 6) = inr (spec_convert 1000 6) /\
  amountAtoms (JStr "25.50") (of_Z 6) = inr 25500000 /\
  amountAtoms (two_digit_amount 2550) (of_Z 6) = inr (spec_convert 2550 6) /\
  amountInSmallestUnit (JNum (of_Z 100)) (of_Z 6) = inr "100000000".
Proof. repeat split; vm_compute; reflexivity. Qed.

(** The product [0.29 * 100] is the binary64 number just below 29. *)
Lemma product_below_29 :
  mul (of_decimal false 29 (-2)) (of_Z 100)
    = S754_finite false 8162774324609023 (-48) /\
  (8162774324609023 < 29 * 2 ^ 48) /\
  Math_floor (mul (of_decimal false 29 (-2)) (of_Z 100)) = of_Z 28 /\
  Math_round (mul (of_decimal false 29 (-2)) (of_Z 100)) = of_Z 29.
Proof. repeat split; vm_compute; reflexivity. Qed.

(** Rounding, as the specification words the algorithm, is exact on every
    amount from 0.00 to 20.00 at 6 decimals. *)
Lemma spec_algorithm_exact_to_20 :
  forallb (fun c =>
             match spec_algorithm (two_digit_amount c) (of_Z 6) with
             | inr z => z =? spec_convert c 6
             | inl _ => false
             end) (cents_upto 2000) = true.
Proof. vm_compute. reflexivity. Qed.

(** The amounts up to 2.00 on which the route's conversion is one cent
    short: 0.29, 0.57, 0.58 and 1.13 to 1.16. *)
Lemma floor_drift_up_to_2 :
  filter (fun c => negb (conversion_exact 6 c)) (cents_upto 200)
    = [29; 57; 58; 113; 114; 115; 116].
Proof. vm_compute. reflexivity. Qed.

(** On whole amounts, which are what the component sends for a whole number
    of credits, the route's conversion is exact: checked up to 1000 USDC. *)
Lemma whole_amounts_exact_to_1000 :
  forallb (fun n =>
             match amountAtoms (JNum (of_Z n)) (of_Z 6) with
             | inr atoms => atoms =? n * 10 ^ 6
             | inl _ => false
             end) (cents_upto 1000) = true.
Proof. vm_compute. reflexivity. Qed.

(** C1 (the claim fails on the code): at the amount 0.29 and 6 decimals the
    route's conversion yields 280000 atoms, one cent short of
    [round(0.29 * 10^6) = 290000], whether the amount arrives as a number or
    as a string; so the conversion is not exact on every amount with two
    fractional digits, while the rounding the specification describes gives
    290000 on the same input. *)
Theorem C1_floor_drops_a_cent :
  amountAtoms (two_digit_amount 29) (of_Z 6) = inr 280000 /\
  amountAtoms (JStr "0.29") (of_Z 6) = inr 280000 /\
  amountInSmallestUnit (JStr "0.29") (of_Z 6) = inr "280000" /\
  spec_convert 29 6 = 290000 /\
  spec_algorithm (two_digit_amount 29) (of_Z 6) = inr 290000 /\
  ~ (forall cents d, 0 <= cents -> 2 <= d ->
       amountAtoms (two_digit_amount cents) (of_Z d) = inr (spec_convert cents d)).
Proof.
  split; [vm_compute; reflexivity|].
  split; [vm_compute; reflexivity|].
  split; [vm_compute; reflexivity|].
  split; [vm_compute; reflexivity|].
  split; [vm_compute; reflexivity|].
  intros H. specialize (H 29 6 ltac:(lia) ltac:(lia)).
  vm_compute in H. discriminate H.
Qed.

End Conversion.

(** ** C2, C3, C7, C8: guards, record and response of the payment route *)

Section PaymentClaims.
Import PaymentRoute.

Lemma debug_events_console ev :
  In ev debug_events -> exists l t, ev = EvConsole l t.
Proof.
  unfold debug_events. cbn. intros H. split_in H; subst; eauto.
Qed.

Lemma insert_failure_log_console inserted ev :
  In ev (insert_failure_log inserted) -> exists l t, ev = EvConsole l t.
Proof.
  unfold insert_failure_log. destruct (q_error inserted); intros H;
    split_in H; subst; eauto.
Qed.

(** Splits a membership in the trace of a dispatched request and closes the
    cases in which the event cannot be of the kind looked for. *)
Ltac trace_cases H :=
  split_in H; try discriminate H;
  try (match goal with
       | Hpre : forallb guard_event ?pre = true |- _ =>
           apply (guard_only _ _ Hpre) in H; discriminate H
       end);
  try (apply debug_events_console in H; destruct H as [? [? H]]; discriminate H);
  try (apply insert_failure_log_console in H; destruct H as [? [? H]];
       discriminate H).

(** The route on a request that reads a listing without the token entry:
    the trace ends at the lookup and the response is the 400 error. *)
Lemma POST_token_absent env w resp :
  In (EvGetWalletTokenBalance w) (fst (POST env)) ->
  getWalletTokenBalance env w = SdkReturns resp ->
  find_usdc resp (CIRCLE_USDC_TOKEN_ID env) = None ->
  exists pre,
    forallb guard_event pre = true /\
    POST env =
      ((pre ++ [EvGetWalletTokenBalance w;
                EvConsole LogError "[CRITICAL] USDC Token ID not found in wallet"])%list,
       json_error "USDC balance not found in wallet." 400).
Proof.
  intros Hin Hget Hfind.
  destruct (POST_reaches_listing _ _ Hin) as [pre [p [Hres [Hpre Hw]]]].
  subst w. exists pre. split; [assumption|].
  unfold POST, POST_try. rewrite Hres. unfold bind.
  rewrite (transfer_token_absent _ _ _ Hget Hfind). reflexivity.
Qed.

(** C2: when the route has read the wallet's balance listing and the
    configured USDC token id is carried by none of its entries, the response
    is the error "USDC balance not found in wallet." (status 400, so not a
    success and not the insufficient-funds condition), and the trace holds
    no call of [createTransaction] and no insert. *)
Theorem C2_unlisted_token_short_circuits env w resp t :
  In (EvGetWalletTokenBalance w) (fst (POST env)) ->
  getWalletTokenBalance env w = SdkReturns resp ->
  CIRCLE_USDC_TOKEN_ID env = Some t ->
  ~ lists_token resp t ->
  snd (POST env) = json_error "USDC balance not found in wallet." 400 /\
  (forall req, ~ In (EvCreateTransaction req) (fst (POST env))) /\
  (forall rec, ~ In (EvInsertTransaction rec) (fst (POST env))).
Proof.
  intros Hin Hget Htok Habs.
  assert (Hfind : find_usdc resp (CIRCLE_USDC_TOKEN_ID env) = None)
    by (rewrite Htok; now apply find_usdc_absent).
  destruct (POST_token_absent _ _ _ Hin Hget Hfind) as [pre [Hpre HP]].
  rewrite HP. cbn [fst snd]. split; [reflexivity|].
  split; intros x Hx; split_in Hx; try discriminate;
    apply (guard_only _ _ Hpre) in Hx; discriminate.
Qed.

Lemma other_listing_lacks_usdc :
  ~ lists_token (mkBalancesResponse (Some (mkBalancesData (Some [other_entry]))))
      "usdc-token".
Proof.
  intros [d [tbs [tb [Hd [Htbs [Hin Hid]]]]]].
  cbn in Hd. inversion Hd; subst d. cbn in Htbs. inversion Htbs; subst tbs.
  destruct Hin as [<-|[]]. discriminate Hid.
Qed.

Lemma C2_witness :
  snd (POST unlisted_env) = json_error "USDC balance not found in wallet." 400 /\
  (forall req, ~ In (EvCreateTransaction req) (fst (POST unlisted_env))) /\
  (forall rec, ~ In (EvInsertTransaction rec) (fst (POST unlisted_env))).
Proof.
  apply (C2_unlisted_token_short_circuits unlisted_env "wallet-1"
           (mkBalancesResponse (Some (mkBalancesData (Some [other_entry]))))
           "usdc-token").
  - vm_compute. tauto.
  - reflexivity.
  - reflexivity.
  - exact other_listing_lacks_usdc.
Defined.

(** C3: when the trace shows the transfer call and the provider answers it
    with a transaction id, exactly one record is inserted; its [status] and
    its [tx_hash] are both "pending" and its idempotency key is "client:"
    followed by the provider's id. *)
Theorem C3_record_is_pending env req d :
  In (EvCreateTransaction req) (fst (POST env)) ->
  createTransaction env req = SdkReturns (mkCreateTxResponse (Some d)) ->
  JsString.truthy (created_id d) = true ->
  exists rec,
    In (EvInsertTransaction rec) (fst (POST env)) /\
    (forall rec', In (EvInsertTransaction rec') (fst (POST env)) -> rec' = rec) /\
    status rec = "pending" /\
    tx_hash rec = "pending" /\
    idempotency_key rec = "client:" ++ created_id d /\
    circle_transaction_id (metadata rec) = created_id d.
Proof.
  intros Hin Hcreate Hid.
  destruct (POST_reaches_dispatch _ _ Hin)
    as [pre [p [resp [tok [atoms [Hres [Hpre [Hget [Hfind [Hamt ->]]]]]]]]]].
  rewrite (POST_dispatched _ _ _ _ _ _ _ Hres Hget Hfind Hamt Hcreate Hid).
  cbn [fst snd].
  eexists. split.
  - apply in_or_app. right. right. apply in_or_app. right.
    right. left. reflexivity.
  - split; [|repeat split].
    intros rec' Hin'. trace_cases Hin'. congruence.
Qed.

Lemma C3_witness :
  In (EvCreateTransaction paying_request) (fst (POST paying_env)) /\
  exists rec,
    In (EvInsertTransaction rec) (fst (POST paying_env)) /\
    (forall rec', In (EvInsertTransaction rec') (fst (POST paying_env)) -> rec' = rec) /\
    status rec = "pending" /\
    tx_hash rec = "pending" /\
    idempotency_key rec = "client:tx-1" /\
    circle_transaction_id (metadata rec) = "tx-1".
Proof.
  assert (Hin : In (EvCreateTransaction paying_request) (fst (POST paying_env)))
    by (vm_compute; tauto).
  split; [exact Hin|].
  apply (C3_record_is_pending paying_env paying_request (mkCreateTxData "tx-1") Hin).
  - reflexivity.
  - reflexivity.
Defined.

(** C8: when the provider has answered the transfer call with an id and the
    insert of the record resolves with an error and no row, the response is
    still the success response, with the provider's id standing for the
    transaction id, and the failure is written to the error log. *)
Theorem C8_failed_insert_is_tolerated env req d rec err :
  In (EvCreateTransaction req) (fst (POST env)) ->
  createTransaction env req = SdkReturns (mkCreateTxResponse (Some d)) ->
  JsString.truthy (created_id d) = true ->
  In (EvInsertTransaction rec) (fst (POST env)) ->
  insert_transaction env rec = mkQuery None (Some err) ->
  snd (POST env) =
    mkResponse 200 (BPayment true (JStr (created_id d)) (created_id d)) /\
  In (EvConsole LogError "Failed to record transaction:") (fst (POST env)).
Proof.
  intros Hin Hcreate Hid Hins Hfail.
  destruct (POST_reaches_dispatch _ _ Hin)
    as [pre [p [resp [tok [atoms [Hres [Hpre [Hget [Hfind [Hamt ->]]]]]]]]]].
  pose proof (POST_dispatched _ _ _ _ _ _ _ Hres Hget Hfind Hamt Hcreate Hid) as HP.
  cbv zeta in HP. rewrite HP in Hins |- *. cbn [fst snd] in *.
  assert (Hrec : rec = transaction_record (user p) (userWallet p) (credits p)
                         (usdcAmount p) (created_id d)).
  { trace_cases Hins. congruence. }
  subst rec. split.
  - rewrite Hfail. reflexivity.
  - apply in_or_app. right. right. apply in_or_app. right.
    apply in_or_app. right. unfold insert_failure_log. rewrite Hfail.
    left. reflexivity.
Qed.

Lemma C8_witness :
  snd (POST db_down_env) = mkResponse 200 (BPayment true (JStr "tx-1") "tx-1") /\
  In (EvConsole LogError "Failed to record transaction:") (fst (POST db_down_env)).
Proof.
  apply (C8_failed_insert_is_tolerated db_down_env paying_request
           (mkCreateTxData "tx-1")
           (transaction_record alice alice_wallet (JNum (of_Z 100))
                               (JNum (of_Z 100)) "tx-1")
           "connection refused").
  - vm_compute. tauto.
  - reflexivity.
  - reflexivity.
  - vm_compute. tauto.
  - reflexivity.
Defined.

(** Steps 0 to 2 hand the two fields of the body on as they came. *)
Lemma resolve_parties_body env pre p :
  resolve_parties env = (pre, Normal p) ->
  request_body env = BodyFields (credits p) (usdcAmount p).
Proof.
  unfold resolve_parties. intros H. run_handler.
  all: inversion H; subst; reflexivity.
Qed.

Lemma dispatch_and_record_insert env u w a c m tok t o rec :
  dispatch_and_record env u w a c m tok = (t, o) ->
  In (EvInsertTransaction rec) t ->
  exists cid, rec = transaction_record u w c m cid.
Proof.
  unfold dispatch_and_record, debug_logs. intros H Hin.
  run_handler; inversion H; subst; clear H; split_in Hin;
    try discriminate Hin; inversion Hin; eauto.
Qed.

(** X30: Every record the route inserts carries the [credits] and the
    [usdcAmount] of the request body as they came, next to the constant
    exchange rate 1: the route never compares the two. *)
Lemma record_copies_body env rec :
  In (EvInsertTransaction rec) (fst (POST env)) ->
  request_body env = BodyFields (credit_amount rec) (amount_usdc rec) /\
  exchange_rate rec = of_Z 1.
Proof.
  intros Hin.
  destruct (resolve_parties env) as [pre o] eqn:Hres.
  pose proof (resolve_parties_events _ _ _ Hres) as Hpre.
  destruct o as [p|r|e].
  - rewrite (POST_trace _ _ _ Hres) in Hin.
    assert (Hin' : In (EvInsertTransaction rec) (fst (transfer env p))).
    { split_in Hin.
      - apply (guard_only _ _ Hpre) in Hin. discriminate.
      - exact Hin.
      - destruct (snd (transfer env p)); unfold catch_log in Hin;
          split_in Hin; discriminate. }
    clear Hin. unfold transfer in Hin'.
    destruct (getWalletTokenBalance env (circle_wallet_id (userWallet p)))
      as [e|resp] eqn:Hget; cbn in Hin'.
    + split_in Hin'. discriminate.
    + destruct (find_usdc resp (CIRCLE_USDC_TOKEN_ID env)) as [tok|] eqn:Hfind.
      * destruct (dispatch_and_record env (user p) (userWallet p)
                    (adminWallet p) (credits p) (usdcAmount p) tok)
          as [t o] eqn:Hd.
        cbn in Hin'. destruct Hin' as [Hin'|Hin']; [discriminate|].
        destruct (dispatch_and_record_insert _ _ _ _ _ _ _ _ _ _ Hd Hin')
          as [cid ->].
        split; [|reflexivity]. cbn. eapply resolve_parties_body; eassumption.
      * cbn in Hin'. split_in Hin'; discriminate.
  - eapply POST_stopped in Hin; [|eassumption|congruence].
    destruct Hin as [Hin|[l [t Hin]]]; discriminate.
  - eapply POST_stopped in Hin; [|eassumption|congruence].
    destruct Hin as [Hin|[l [t Hin]]]; discriminate.
Qed.

(** C7 (the claim fails on the code): on the body
    [{credits: 1000, usdcAmount: 1}] the route answers with a success,
    transfers 1000000 atoms, that is 1 USDC, and inserts a record of 1000
    credits for 1 USDC at the exchange rate 1, although 1000 credits at that
    rate are 1000 USDC. *)
Theorem C7_route_takes_usdcAmount_from_body :
  exists req rec,
    In (EvCreateTransaction req) (fst (POST underpaying_env)) /\
    req_amount req = ["1000000"] /\
    In (EvInsertTransaction rec) (fst (POST underpaying_env)) /\
    credit_amount rec = JNum (of_Z 1000) /\
    amount_usdc rec = JNum (of_Z 1) /\
    exchange_rate rec = of_Z 1 /\
    mul (of_Z 1000) (exchange_rate rec) <> of_Z 1 /\
    http_status (snd (POST underpaying_env)) = 200.
Proof.
  exists (transfer_request alice_wallet treasury "1000000" (Some "usdc-token")).
  exists (transaction_record alice alice_wallet (JNum (of_Z 1000)) (JNum (of_Z 1))
                             "tx-1").
  split; [vm_compute; tauto|].
  split; [reflexivity|].
  split; [vm_compute; tauto|].
  split; [reflexivity|].
  split; [reflexivity|].
  split; [reflexivity|].
  split; [vm_compute; discriminate|].
  reflexivity.
Qed.

End PaymentClaims.

(** ** C10: the balance route *)

Section BalanceClaims.
Import PaymentRoute BalanceRoute.

(** The balance route on an authenticated request whose listing has no
    entry for the token. *)
Lemma GET_token_absent env w u resp :
  JsString.truthy w = true ->
  getUser env = mkAuth (Some u) None ->
  getWalletTokenBalance env w = SdkReturns resp ->
  find_usdc resp (CIRCLE_USDC_TOKEN_ID env) = None ->
  GET env (Some w) =
    ([EvGetUser; EvGetWalletTokenBalance w;
      EvConsole LogInfo "[DEBUG] Wallet balances:";
      EvConsole LogWarn "[DEBUG] Configured USDC Token ID not found in wallet balances."],
     mkResponse 200 (BBalance "0" None)).
Proof.
  intros Hw Hauth Hget Hfind. unfold GET, GET_try.
  rewrite Hw, Hauth. cbn. rewrite Hget. cbn. rewrite Hfind. reflexivity.
Qed.

(** C10: for an authenticated balance request whose listing has no entry
    with the configured USDC token id, the balance route answers with status
    200, balance "0" and rawBalance null, after a warning in the log only;
    the balance field is the one a listed entry of amount "0" gives; the
    payment route, reading such a listing, answers with the 400 error. *)
Theorem C10_balance_route_reports_zero env w u resp t :
  JsString.truthy w = true ->
  getUser env = mkAuth (Some u) None ->
  getWalletTokenBalance env w = SdkReturns resp ->
  CIRCLE_USDC_TOKEN_ID env = Some t ->
  ~ lists_token resp t ->
  snd (GET env (Some w)) = mkResponse 200 (BBalance "0" None) /\
  (forall tb, amount tb = "0" -> balance_field (Some tb) = "0") /\
  (In (EvGetWalletTokenBalance w) (fst (POST env)) ->
   snd (POST env) = json_error "USDC balance not found in wallet." 400).
Proof.
  intros Hw Hauth Hget Htok Habs.
  assert (Hfind : find_usdc resp (CIRCLE_USDC_TOKEN_ID env) = None)
    by (rewrite Htok; now apply find_usdc_absent).
  split; [|split].
  - now rewrite (GET_token_absent _ _ _ _ Hw Hauth Hget Hfind).
  - intros tb Hamt. unfold balance_field. rewrite Hamt. reflexivity.
  - intros Hin.
    destruct (POST_token_absent _ _ _ Hin Hget Hfind) as [pre [_ HP]].
    now rewrite HP.
Qed.

Lemma C10_witness :
  snd (GET unlisted_env (Some "wallet-1")) = mkResponse 200 (BBalance "0" None) /\
  (forall tb, amount tb = "0" -> balance_field (Some tb) = "0") /\
  (In (EvGetWalletTokenBalance "wallet-1") (fst (POST unlisted_env)) ->
   snd (POST unlisted_env) = json_error "USDC balance not found in wallet." 400).
Proof.
  apply (C10_balance_route_reports_zero unlisted_env "wallet-1" alice
           (mkBalancesResponse (Some (mkBalancesData (Some [other_entry]))))
           "usdc-token").
  - reflexivity.
  - reflexivity.
  - reflexivity.
  - reflexivity.
  - exact other_listing_lacks_usdc.
Defined.

End BalanceClaims.

(** ** C4, C5, C6, C9: the pay button and the sufficiency check *)

Section CardClaims.
Import PurchaseCreditsCard.

Lemma ge_nan_l r : ge NaN r = false.
Proof. destruct r; reflexivity. Qed.

(** Unfolds one render into its view. *)
Lemma render_view st v :
  render st = Some v ->
  exists micro,
    requiredUsdcMicro (requiredUsdc (creditsToPurchase st)) = Some micro /\
    view_requiredUsdc v = requiredUsdc (creditsToPurchase st) /\
    view_requiredUsdcMicro v = micro /\
    view_buttonDisabled v =
      buttonDisabled
        (isConnected (walletType st) (isExternalConnected st)
                     (selectedCircleWalletId st))
        (view_hasSufficientBalance v) (creditsToPurchase st) (destination st)
        (walletType st) (usdcAddress st) (isSubmitting st)
        (isExternalBalanceLoading st).
Proof.
  unfold render. destruct (requiredUsdcMicro _) as [micro|]; [|discriminate].
  intros H. inversion H; subst; clear H. exists micro. now cbn.
Qed.

Lemma buttonDisabled_submitting c s x d w u l :
  buttonDisabled c s x d w u true l = true.
Proof.
  unfold buttonDisabled. now rewrite orb_true_r.
Qed.

Lemma buttonDisabled_no_destination c s x w u sub l :
  buttonDisabled c s x None w u sub l = true.
Proof.
  unfold buttonDisabled. cbn [present negb].
  now rewrite orb_true_r.
Qed.

Lemma enabled_not_submitting st v :
  render st = Some v -> view_buttonDisabled v = false -> isSubmitting st = false.
Proof.
  intros Hr Hv. destruct (render_view _ _ Hr) as [micro [_ [_ [_ Hb]]]].
  rewrite Hb in Hv. destruct (isSubmitting st); [|reflexivity].
  now rewrite buttonDisabled_submitting in Hv.
Qed.

(** A click on the pay button of a page that is submitting changes nothing. *)
Lemma click_pay_submitting p :
  isSubmitting (ui p) = true -> click_pay p = (p, []).
Proof.
  intros Hs. unfold click_pay, control_event.
  destruct (render (ui p)) as [v|] eqn:Hr; [|reflexivity].
  destruct (view_buttonDisabled v) eqn:Hv; [reflexivity|].
  apply (enabled_not_submitting _ _ Hr) in Hv. congruence.
Qed.

(** What a handler leaves behind: either nothing dispatched and the flag as
    it was, or one dispatch and the flag raised. *)
Lemma handleExternalPurchase_cases st v st' effs susp :
  handleExternalPurchase st v = (st', effs, susp) ->
  (dispatches effs = 0%nat /\ st' = st /\ susp = false) \/
  (dispatches effs = 1%nat /\ st' = setIsSubmitting true st /\ susp = true).
Proof.
  unfold handleExternalPurchase. intros H.
  repeat case_split; inversion H; subst; auto.
Qed.

Lemma handleCirclePurchase_cases st v st' effs susp :
  handleCirclePurchase st v = (st', effs, susp) ->
  (dispatches effs = 0%nat /\ st' = st /\ susp = false) \/
  (dispatches effs = 1%nat /\ st' = setIsSubmitting true st /\ susp = true).
Proof.
  unfold handleCirclePurchase. intros H.
  repeat case_split; inversion H; subst; auto.
Qed.

Lemma click_pay_cases p p' effs :
  click_pay p = (p', effs) ->
  (dispatches effs = 0%nat /\ p' = p) \/
  (dispatches effs = 1%nat /\ isSubmitting (ui p) = false /\
   p' = mkPage (setIsSubmitting true (ui p)) (S (in_flight p))).
Proof.
  unfold click_pay, control_event. intros H.
  destruct (render (ui p)) as [v|] eqn:Hr; [|inversion H; auto].
  destruct (view_buttonDisabled v) eqn:Hv; [inversion H; auto|].
  pose proof (enabled_not_submitting _ _ Hr Hv) as Hs.
  destruct (walletType (ui p)).
  - destruct (handleExternalPurchase (ui p) v) as [[st effs'] susp] eqn:Hh.
    inversion H; subst; clear H.
    destruct (handleExternalPurchase_cases _ _ _ _ _ Hh)
      as [[He [-> ->]]|[He [-> ->]]]; [left|right]; repeat split; auto.
    now destruct p.
  - destruct (handleCirclePurchase (ui p) v) as [[st effs'] susp] eqn:Hh.
    inversion H; subst; clear H.
    destruct (handleCirclePurchase_cases _ _ _ _ _ Hh)
      as [[He [-> ->]]|[He [-> ->]]]; [left|right]; repeat split; auto.
    now destruct p.
Qed.

(** One input other than a settle: nothing dispatched and the flag kept, or
    one dispatch issued from a page that was not submitting, which now is. *)
Lemma step_unsettled p i p' effs :
  step p i = (p', effs) -> is_settle i = false ->
  (dispatches effs = 0%nat /\ isSubmitting (ui p') = isSubmitting (ui p)) \/
  (dispatches effs = 1%nat /\ isSubmitting (ui p) = false /\
   isSubmitting (ui p') = true).
Proof.
  intros H Hi. destruct i; unfold step, control_event in H; try discriminate Hi.
  - destruct (click_pay_cases _ _ _ H) as [[He ->]|[He [Hs ->]]]; auto.
  - inversion H; subst; auto.
  - destruct (isSubmitting (ui p)) eqn:Hs; inversion H; subst; auto.
  - destruct (nth_error presetUsdcAmounts n);
      [destruct (isSubmitting (ui p)) eqn:Hs|]; inversion H; subst; auto.
  - inversion H; subst; auto.
  - inversion H; subst; auto.
  - inversion H; subst; auto.
  - inversion H; subst; auto.
Qed.

Lemma dispatches_app a b :
  dispatches (a ++ b) = (dispatches a + dispatches b)%nat.
Proof.
  unfold dispatches. now rewrite filter_app, length_app.
Qed.

(** While the page is submitting and no handler settles, no input
    dispatches, and the page stays submitting. *)
Lemma run_submitting inputs : forall p,
  isSubmitting (ui p) = true -> unsettled inputs = true ->
  dispatches (snd (run p inputs)) = 0%nat /\
  isSubmitting (ui (fst (run p inputs))) = true.
Proof.
  induction inputs as [|i rest IH]; intros p Hs Hu; [now split|].
  cbn in Hu. apply andb_true_iff in Hu. destruct Hu as [Hi Hu].
  apply negb_true_iff in Hi. cbn [run].
  destruct (step p i) as [p' effs] eqn:Hstep.
  destruct (run p' rest) as [p'' effs'] eqn:Hrun.
  destruct (step_unsettled _ _ _ _ Hstep Hi) as [[He Hk]|[He [Hf Ht]]];
    [|congruence].
  rewrite Hs in Hk. specialize (IH p' Hk Hu). rewrite Hrun in IH.
  cbn [fst snd] in *. rewrite dispatches_app. destruct IH as [-> ->].
  split; [lia|reflexivity].
Qed.

(** Between two settles at most one dispatch is issued, from any page. *)
Lemma run_unsettled inputs : forall p,
  unsettled inputs = true -> (dispatches (snd (run p inputs)) <= 1)%nat.
Proof.
  induction inputs as [|i rest IH]; intros p Hu; [cbn; lia|].
  pose proof Hu as Hu'. cbn in Hu.
  apply andb_true_iff in Hu. destruct Hu as [Hi Hu].
  apply negb_true_iff in Hi. cbn [run].
  destruct (step p i) as [p' effs] eqn:Hstep.
  destruct (run p' rest) as [p'' effs'] eqn:Hrun.
  cbn [snd]. rewrite dispatches_app.
  destruct (step_unsettled _ _ _ _ Hstep Hi) as [[He Hk]|[He [Hf Ht]]].
  - specialize (IH p' Hu). rewrite Hrun in IH. cbn [snd] in IH. lia.
  - destruct (run_submitting rest p' Ht Hu) as [Hz _].
    rewrite Hrun in Hz. cbn [snd] in Hz. lia.
Qed.

(** X29: On the pages reached from the first render, a handler is in flight
    exactly when the page is submitting, and never more than one. *)
Lemma in_flight_iff_submitting h inputs :
  let p := fst (run (initial h) inputs) in
  (in_flight p = 0%nat /\ isSubmitting (ui p) = false) \/
  (in_flight p = 1%nat /\ isSubmitting (ui p) = true).
Proof.
  cbv zeta.
  assert (Hinv : forall inputs p,
             ((in_flight p = 0%nat /\ isSubmitting (ui p) = false) \/
              (in_flight p = 1%nat /\ isSubmitting (ui p) = true)) ->
             let q := fst (run p inputs) in
             (in_flight q = 0%nat /\ isSubmitting (ui q) = false) \/
             (in_flight q = 1%nat /\ isSubmitting (ui q) = true)).
  { clear. induction inputs as [|i rest IH]; intros p Hp; [exact Hp|].
    cbn [run]. destruct (step p i) as [p' effs] eqn:Hstep.
    specialize (IH p'). destruct (run p' rest) as [p'' effs'] eqn:Hrun.
    cbn [fst] in *. apply IH. clear IH Hrun.
    destruct i; unfold step, control_event in Hstep.
    - destruct (click_pay_cases _ _ _ Hstep) as [[_ ->]|[_ [Hs ->]]]; auto.
      destruct Hp as [[Hn _]|[_ Ht]]; [|congruence].
      right. cbn. rewrite Hn. auto.
    - destruct Hp as [[Hz Hf]|[Ho Ht]]; rewrite ?Hz, ?Ho in Hstep;
        inversion Hstep; subst; auto.
    - inversion Hstep; subst; auto.
    - destruct (isSubmitting (ui p)) eqn:Hs; inversion Hstep; subst;
        cbn; rewrite ?Hs; intuition congruence.
    - destruct (nth_error presetUsdcAmounts n);
        [destruct (isSubmitting (ui p)) eqn:Hs|]; inversion Hstep; subst;
        cbn; rewrite ?Hs; intuition congruence.
    - inversion Hstep; subst; auto.
    - inversion Hstep; subst; auto.
    - inversion Hstep; subst; auto.
    - inversion Hstep; subst; auto. }
  apply Hinv. left. split; reflexivity.
Qed.

(** Two clicks in a row on the enabled button issue one transfer, of
    10 USDC in atoms, and leave one handler in flight. *)
Lemma double_click_dispatches_once :
  snd (run ready_page [ClickPay; ClickPay])
    = [WriteContractTransfer "0x3600" "0x7ea5" 10000000] /\
  in_flight (fst (run ready_page [ClickPay; ClickPay])) = 1%nat /\
  snd (run custodial_page [ClickPay; ClickPay])
    = [FetchCirclePayment (of_Z 10) (of_Z 10)].
Proof. repeat split; vm_compute; reflexivity. Qed.

(** The body a click sends to the payment route carries the credits of the
    page and, as [usdcAmount], their product with [USDC_PER_CREDIT]. *)
Lemma click_pay_body_is_derived p p' effs c u :
  click_pay p = (p', effs) ->
  In (FetchCirclePayment c u) effs ->
  c = creditsToPurchase (ui p) /\ u = mul c USDC_PER_CREDIT.
Proof.
  unfold click_pay, control_event. intros H Hin.
  destruct (render (ui p)) as [v|] eqn:Hr; [|inversion H; subst; destruct Hin].
  destruct (render_view _ _ Hr) as [micro [_ [Hreq _]]].
  destruct (view_buttonDisabled v); [inversion H; subst; destruct Hin|].
  destruct (walletType (ui p)).
  - unfold handleExternalPurchase in H.
    repeat case_split; inversion H; subst; split_in Hin; discriminate Hin.
  - unfold handleCirclePurchase in H.
    repeat case_split; inversion H; subst; split_in Hin;
      try discriminate Hin.
    inversion Hin; subst. split; [reflexivity|exact Hreq].
Qed.

(** C4: on a page that is submitting, the pay button is rendered disabled
    and a click on it changes nothing and issues nothing; as long as no
    handler settles, no sequence of inputs, repeated clicks included, issues
    a dispatch; and from any page such a sequence issues at most one. *)
Theorem C4_submitting_disables_pay p inputs :
  isSubmitting (ui p) = true ->
  unsettled inputs = true ->
  (forall v, render (ui p) = Some v -> view_buttonDisabled v = true) /\
  step p ClickPay = (p, []) /\
  dispatches (snd (run p inputs)) = 0%nat /\
  isSubmitting (ui (fst (run p inputs))) = true /\
  (forall q, (dispatches (snd (run q inputs)) <= 1)%nat).
Proof.
  intros Hs Hu. split; [|split; [|split; [|split]]].
  - intros v Hr. destruct (render_view _ _ Hr) as [micro [_ [_ [_ Hb]]]].
    rewrite Hb, Hs. apply buttonDisabled_submitting.
  - now apply click_pay_submitting.
  - now apply run_submitting.
  - now apply run_submitting.
  - intros q. now apply run_unsettled.
Qed.

Lemma C4_witness :
  (forall v, render (ui submitting_page) = Some v -> view_buttonDisabled v = true) /\
  step submitting_page ClickPay = (submitting_page, []) /\
  dispatches (snd (run submitting_page impatient_clicks)) = 0%nat /\
  isSubmitting (ui (fst (run submitting_page impatient_clicks))) = true /\
  (forall q, (dispatches (snd (run q impatient_clicks)) <= 1)%nat).
Proof.
  apply (C4_submitting_disables_pay submitting_page impatient_clicks).
  - reflexivity.
  - reflexivity.
Defined.

(** C5: on the external path, once the hook reports a balance [b], the
    sufficiency check is the integer comparison [b >= r] with the required
    amount [r] in atoms; 10 credits require 10000000 atoms, against which
    9999999 is insufficient and 10000000 sufficient. *)
Theorem C5_external_sufficiency_compares_integers (b r : Z) cb ru :
  hasSufficientBalance external true (Some b) cb ru r = (b >=? r) /\
  (hasSufficientBalance external true (Some b) cb ru r = true <-> r <= b) /\
  requiredUsdcMicro (requiredUsdc (of_Z 10)) = Some 10000000 /\
  hasSufficientBalance external true (Some 9999999) cb ru 10000000 = false /\
  hasSufficientBalance external true (Some 10000000) cb ru 10000000 = true.
Proof.
  split; [reflexivity|]. split; [cbn; lia|].
  split; [vm_compute; reflexivity|]. split; reflexivity.
Qed.

(** C6: on the custodial path, for every balance string [s] and required
    decimal amount [r], the sufficiency check is [parseFloat(s) >= r] on
    numbers, whatever the amount in atoms; the balance "100.00" is
    sufficient for the 50 USDC of 50 credits. *)
Theorem C6_custodial_sufficiency_compares_decimals (s : string) (r : float64)
    heb eb micro :
  hasSufficientBalance circle heb eb (Some s) r micro
    = ge (JsString.parseFloat s) r /\
  hasSufficientBalance circle heb eb (Some "100.00") (requiredUsdc (of_Z 50)) micro
    = true.
Proof.
  split; [|vm_compute; reflexivity].
  unfold hasSufficientBalance. destruct s as [|c s']; [|reflexivity].
  cbn [JsString.truthy].
  change (JsString.parseFloat "") with NaN. now rewrite ge_nan_l.
Qed.

Lemma click_pay_no_destination p :
  destination (ui p) = None -> click_pay p = (p, []).
Proof.
  intros Hd. unfold click_pay, control_event.
  destruct (render (ui p)) as [v|] eqn:Hr; [|reflexivity].
  destruct (render_view _ _ Hr) as [micro [_ [_ [_ Hb]]]].
  now rewrite Hb, Hd, buttonDisabled_no_destination.
Qed.

(** Until the destination is fetched, no input dispatches anything. *)
Lemma run_unresolved inputs : forall p,
  destination (ui p) = None -> unresolved inputs = true ->
  dispatches (snd (run p inputs)) = 0%nat /\
  destination (ui (fst (run p inputs))) = None.
Proof.
  induction inputs as [|i rest IH]; intros p Hd Hu; [now split|].
  cbn in Hu. apply andb_true_iff in Hu. destruct Hu as [Hi Hu].
  cbn [run]. destruct (step p i) as [p' effs] eqn:Hstep.
  assert (Hp' : dispatches effs = 0%nat /\ destination (ui p') = None).
  { destruct i; unfold step, control_event in Hstep; try discriminate Hi.
    - rewrite (click_pay_no_destination _ Hd) in Hstep.
      inversion Hstep; subst; auto.
    - destruct (in_flight p); inversion Hstep; subst; auto.
    - inversion Hstep; subst; auto.
    - destruct (isSubmitting (ui p)); inversion Hstep; subst; auto.
    - destruct (nth_error presetUsdcAmounts n);
        [destruct (isSubmitting (ui p))|]; inversion Hstep; subst; auto.
    - inversion Hstep; subst; auto.
    - inversion Hstep; subst; auto.
    - inversion Hstep; subst; auto. }
  destruct Hp' as [He Hd'].
  specialize (IH p' Hd' Hu). destruct (run p' rest) as [p'' effs'].
  cbn [fst snd] in *. rewrite dispatches_app. destruct IH as [-> ->].
  split; [lia|reflexivity].
Qed.

(** C9: on a page whose destination is unresolved, the pay button is
    rendered disabled, whatever the wallet selection and the balances; a
    click on it changes nothing and issues nothing; and no sequence of
    inputs dispatches anything until the destination has been fetched. *)
Theorem C9_missing_destination_disables_pay p :
  destination (ui p) = None ->
  (forall v, render (ui p) = Some v -> view_buttonDisabled v = true) /\
  step p ClickPay = (p, []) /\
  (forall connected sufficient x w u submitting loading,
     buttonDisabled connected sufficient x None w u submitting loading = true) /\
  (forall inputs, unresolved inputs = true ->
     dispatches (snd (run p inputs)) = 0%nat).
Proof.
  intros Hd. split; [|split; [|split]].
  - intros v Hr. destruct (render_view _ _ Hr) as [micro [_ [_ [_ Hb]]]].
    rewrite Hb, Hd. apply buttonDisabled_no_destination.
  - now apply click_pay_no_destination.
  - intros. apply buttonDisabled_no_destination.
  - intros inputs Hu. now apply run_unresolved.
Qed.

Lemma C9_witness :
  (forall v, render (ui fresh_page) = Some v -> view_buttonDisabled v = true) /\
  step fresh_page ClickPay = (fresh_page, []) /\
  (forall connected sufficient x w u submitting loading,
     buttonDisabled connected sufficient x None w u submitting loading = true) /\
  (forall inputs, unresolved inputs = true ->
     dispatches (snd (run fresh_page inputs)) = 0%nat).
Proof.
  apply (C9_missing_destination_disables_pay fresh_page).
  reflexivity.
Defined.

End CardClaims.

(* ================================================================== *)
(** * Further properties of the payment route *)
(* ================================================================== *)

(** Splits a membership in a trace and closes the cases in which the event
    is of another kind than the one looked for. *)
Ltac event_cases H :=
  split_in H; try discriminate H;
  try (match goal with
       | Hpre : forallb PaymentRoute.guard_event ?pre = true |- _ =>
           apply (guard_only _ _ Hpre) in H; discriminate H
       end);
  try (apply debug_events_console in H; destruct H as [? [? H]]; discriminate H);
  try (apply insert_failure_log_console in H; destruct H as [? [? H]];
       discriminate H).

Section PaymentGuards.
Import PaymentRoute TraceCount Scenarios.

(** What steps 0 to 2 have established when they hand over. *)
Lemma resolve_parties_normal env pre p :
  resolve_parties env = (pre, Normal p) ->
  auth_error (getUser env) = None /\
  auth_user (getUser env) = Some (user p) /\
  request_body env = BodyFields (credits p) (usdcAmount p) /\
  truthy (credits p) = true /\
  truthy (usdcAmount p) = true /\
  usable (select_admin_wallet env) = Some (adminWallet p) /\
  ((usable (select_sca_wallet env (uid (user p))) = Some (userWallet p) /\
    pre = [EvGetUser; EvReqJson; EvSelectScaWallet (uid (user p));
           EvSelectAdminWallet]) \/
   (usable (select_sca_wallet env (uid (user p))) = None /\
    usable (select_recent_wallet env (uid (user p))) = Some (userWallet p) /\
    pre = [EvGetUser; EvReqJson; EvSelectScaWallet (uid (user p));
           EvSelectRecentWallet (uid (user p)); EvSelectAdminWallet])).
Proof.
  unfold resolve_parties. intros H. run_handler.
  all: inversion H; subst; clear H; cbn [user credits usdcAmount userWallet adminWallet].
  all: match goal with
       | Hor : (negb _ || negb _)%bool = false |- _ =>
           apply orb_false_iff in Hor; destruct Hor as [Hc Hm];
           apply negb_false_iff in Hc; apply negb_false_iff in Hm
       end.
  all: repeat split; auto.
Qed.

(** A return from steps 0 to 2 is one of the four guard errors. *)
Lemma resolve_parties_returned env t r :
  resolve_parties env = (t, Returned r) ->
  r = json_error "Unauthorized" 401 \/
  r = json_error "credits and usdcAmount are required" 400 \/
  r = json_error
        "Circle Developer Wallet not found. Please create one in the Wallet Demo first."
        404 \/
  r = json_error "Platform admin wallet not configured" 500.
Proof.
  unfold resolve_parties. intros H. run_handler.
  all: inversion H; subst; auto.
Qed.

Lemma POST_of_returned env t r :
  resolve_parties env = (t, Returned r) -> POST env = (t, r).
Proof. intros H. unfold POST, POST_try. now rewrite H. Qed.

Lemma POST_of_normal env pre p :
  resolve_parties env = (pre, Normal p) ->
  POST env =
    try_catch ((pre ++ fst (transfer env p))%list, snd (transfer env p))
              "Circle payment error:" "An unexpected error occurred".
Proof.
  intros H. unfold POST, POST_try. rewrite H. unfold bind.
  now destruct (transfer env p).
Qed.

(** X1: A request without a session is answered 401 after the session lookup
    alone: the body is not read, no table and no provider is queried. *)
Theorem POST_unauthenticated env :
  auth_error (getUser env) <> None \/ auth_user (getUser env) = None ->
  POST env = ([EvGetUser], json_error "Unauthorized" 401).
Proof.
  intros H. apply POST_of_returned. unfold resolve_parties.
  destruct (getUser env) as [[u|] [e|]]; cbn in *; try reflexivity.
  destruct H as [H|H]; [now elim H|discriminate].
Qed.

Lemma POST_unauthenticated_witness :
  POST signed_out_env = ([EvGetUser], json_error "Unauthorized" 401).
Proof.
  apply (POST_unauthenticated signed_out_env). left. discriminate.
Defined.

(** X2: With a session, a body in which [credits] or [usdcAmount] is missing or
    falsy (0, the empty string, null, false) is answered 400 before any
    table or the provider is queried. *)
Theorem POST_missing_field env u c m :
  getUser env = mkAuth (Some u) None ->
  request_body env = BodyFields c m ->
  truthy c = false \/ truthy m = false ->
  POST env =
    ([EvGetUser; EvReqJson],
     json_error "credits and usdcAmount are required" 400).
Proof.
  intros Ha Hb Hf. apply POST_of_returned. unfold resolve_parties.
  rewrite Ha, Hb. cbn.
  destruct Hf as [-> | ->]; cbn; rewrite ?orb_true_r; reflexivity.
Qed.

Lemma POST_missing_field_witness :
  POST (demo_env (BodyFields (JNum (of_Z 5)) (JNum (of_Z 0))) [usdc_entry "1"]) =
    ([EvGetUser; EvReqJson],
     json_error "credits and usdcAmount are required" 400).
Proof.
  apply (POST_missing_field _ alice (JNum (of_Z 5)) (JNum (of_Z 0))).
  - reflexivity.
  - reflexivity.
  - right. reflexivity.
Defined.

(** X3: The wallet whose balances are read, and from which a transfer is made,
    is a row of the session's user: the one the SCA query yields, or, only
    when that query yields none, the one the most-recent query yields; the
    second query is issued in that case alone. *)
Theorem POST_charges_sca_or_recent_wallet env w :
  In (EvGetWalletTokenBalance w) (fst (POST env)) ->
  exists u row,
    auth_user (getUser env) = Some u /\
    circle_wallet_id row = w /\
    ((usable (select_sca_wallet env (uid u)) = Some row /\
      ~ In (EvSelectRecentWallet (uid u)) (fst (POST env))) \/
     (usable (select_sca_wallet env (uid u)) = None /\
      usable (select_recent_wallet env (uid u)) = Some row /\
      In (EvSelectRecentWallet (uid u)) (fst (POST env)))).
Proof.
  intros Hin.
  destruct (POST_reaches_listing _ _ Hin) as [pre [p [Hres [Hpre Hw]]]].
  destruct (resolve_parties_normal _ _ _ Hres)
    as [_ [Hu [_ [_ [_ [_ Hwallet]]]]]].
  exists (user p), (userWallet p). split; [exact Hu|]. split; [exact Hw|].
  rewrite (POST_trace _ _ _ Hres).
  destruct (transfer env p) as [t o] eqn:Ht.
  destruct (transfer_events _ _ _ _ Ht) as [t' [-> Ht']]. cbn [fst snd].
  destruct Hwallet as [[Hs ->]|[Hs [Hr ->]]]; [left|right].
  - split; [exact Hs|]. intros H. split_in H; try discriminate H.
    + apply (dispatch_only _ _ Ht') in H. discriminate H.
    + destruct o; unfold catch_log in H; split_in H; discriminate H.
  - split; [exact Hs|]. split; [exact Hr|].
    right. right. right. left. reflexivity.
Qed.

Lemma POST_charges_sca_or_recent_wallet_witness :
  exists u row,
    auth_user (getUser paying_env) = Some u /\
    circle_wallet_id row = "wallet-1" /\
    ((usable (select_sca_wallet paying_env (uid u)) = Some row /\
      ~ In (EvSelectRecentWallet (uid u)) (fst (POST paying_env))) \/
     (usable (select_sca_wallet paying_env (uid u)) = None /\
      usable (select_recent_wallet paying_env (uid u)) = Some row /\
      In (EvSelectRecentWallet (uid u)) (fst (POST paying_env)))).
Proof.
  apply (POST_charges_sca_or_recent_wallet paying_env "wallet-1").
  vm_compute. tauto.
Defined.



(** The transfer step ends normally only with a provider id in hand. *)
Lemma transfer_normal env p t r :
  transfer env p = (t, Normal r) ->
  exists resp tok atoms d,
    getWalletTokenBalance env (circle_wallet_id (userWallet p)) = SdkReturns resp /\
    find_usdc resp (CIRCLE_USDC_TOKEN_ID env) = Some tok /\
    amountInSmallestUnit (usdcAmount p) (decimals_of tok) = inr atoms /\
    createTransaction env
      (transfer_request (userWallet p) (adminWallet p) atoms
                        (CIRCLE_USDC_TOKEN_ID env))
      = SdkReturns (mkCreateTxResponse (Some d)) /\
    JsString.truthy (created_id d) = true.
Proof.
  unfold transfer. intros H.
  destruct (getWalletTokenBalance env (circle_wallet_id (userWallet p)))
    as [e|resp] eqn:Hget; cbn in H; [discriminate H|].
  destruct (find_usdc resp (CIRCLE_USDC_TOKEN_ID env)) as [tok|] eqn:Hfind;
    [|discriminate H].
  unfold dispatch_and_record in H.
  destruct (amountInSmallestUnit (usdcAmount p) (decimals_of tok))
    as [e|atoms] eqn:Hamt; [discriminate H|].
  cbn in H.
  destruct (createTransaction env _) as [e|[[d|]]] eqn:Hcreate; cbn in H;
    try discriminate H.
  destruct (JsString.truthy (created_id d)) eqn:Hid; cbn in H;
    [|discriminate H].
  exists resp, tok, atoms, d. repeat split; assumption.
Qed.

Lemma transfer_returned env p t r :
  transfer env p = (t, Returned r) ->
  r = json_error "USDC balance not found in wallet." 400.
Proof.
  unfold transfer, dispatch_and_record, debug_logs. intros H. run_handler.
  all: inversion H; subst; reflexivity.
Qed.

(** A success response comes from a request that reached the provider. *)
Lemma POST_success_dispatched env :
  http_status (snd (POST env)) = 200 ->
  exists req d,
    In (EvCreateTransaction req) (fst (POST env)) /\
    createTransaction env req = SdkReturns (mkCreateTxResponse (Some d)) /\
    JsString.truthy (created_id d) = true.
Proof.
  intros Hok.
  destruct (resolve_parties env) as [pre [p|r|e]] eqn:Hres.
  - destruct (transfer env p) as [t [r|r|e]] eqn:Ht.
    + destruct (transfer_normal _ _ _ _ Ht)
        as [resp [tok [atoms [d [Hget [Hfind [Hamt [Hcreate Hid]]]]]]]].
      exists (transfer_request (userWallet p) (adminWallet p) atoms
                               (CIRCLE_USDC_TOKEN_ID env)), d.
      split; [|split; assumption].
      rewrite (POST_dispatched _ _ _ _ _ _ _ Hres Hget Hfind Hamt Hcreate Hid).
      cbn [fst]. apply in_or_app. right. right. apply in_or_app. right.
      left. reflexivity.
    + rewrite (POST_of_normal _ _ _ Hres), Ht in Hok. cbn in Hok.
      rewrite (transfer_returned _ _ _ _ Ht) in Hok. discriminate Hok.
    + rewrite (POST_of_normal _ _ _ Hres), Ht in Hok. discriminate Hok.
  - rewrite (POST_of_returned _ _ _ Hres) in Hok. cbn in Hok.
    destruct (resolve_parties_returned _ _ _ Hres) as [-> | [-> | [-> | ->]]];
      discriminate Hok.
  - unfold POST, POST_try in Hok. rewrite Hres in Hok. discriminate Hok.
Qed.

(** X5: The route answers with status 200 exactly when it has called the
    provider's [createTransaction] and received a non-empty transaction id:
    no success is reported without a transfer, and none is withheld after
    one, whatever the insert does. *)
Theorem POST_success_iff_provider_id env :
  http_status (snd (POST env)) = 200 <->
  exists req d,
    In (EvCreateTransaction req) (fst (POST env)) /\
    createTransaction env req = SdkReturns (mkCreateTxResponse (Some d)) /\
    JsString.truthy (created_id d) = true.
Proof.
  split; [apply POST_success_dispatched|].
  intros [req [d [Hin [Hcreate Hid]]]].
  destruct (POST_reaches_dispatch _ _ Hin)
    as [pre [p [resp [tok [atoms [Hres [Hpre [Hget [Hfind [Hamt ->]]]]]]]]]].
  now rewrite (POST_dispatched _ _ _ _ _ _ _ Hres Hget Hfind Hamt Hcreate Hid).
Qed.

(** X6: When the provider rejects the transfer call, or answers it without a
    transaction id, the response is a 500 error and nothing is inserted in
    the transactions table. *)
Theorem POST_provider_failure_records_nothing env req :
  In (EvCreateTransaction req) (fst (POST env)) ->
  (forall d, createTransaction env req = SdkReturns (mkCreateTxResponse (Some d)) ->
             JsString.truthy (created_id d) = false) ->
  http_status (snd (POST env)) = 500 /\
  (exists text, body (snd (POST env)) = BError text) /\
  (forall rec, ~ In (EvInsertTransaction rec) (fst (POST env))).
Proof.
  intros Hin Hfail.
  destruct (POST_reaches_dispatch _ _ Hin)
    as [pre [p [resp [tok [atoms [Hres [Hpre [Hget [Hfind [Hamt ->]]]]]]]]]].
  rewrite (POST_of_normal _ _ _ Hres).
  unfold transfer. rewrite Hget. cbn. rewrite Hfind.
  unfold dispatch_and_record. rewrite Hamt. cbn.
  destruct (createTransaction env _) as [e|[[d|]]] eqn:Hcreate; cbn.
  - repeat split; eauto. intros rec H.
    rewrite <- !app_assoc in H. event_cases H.
  - rewrite (Hfail d eq_refl). cbn. repeat split; eauto. intros rec H.
    rewrite <- !app_assoc in H. event_cases H.
  - repeat split; eauto. intros rec H.
    rewrite <- !app_assoc in H. event_cases H.
Qed.

Lemma POST_provider_failure_witness :
  http_status (snd (POST rejecting_env)) = 500 /\
  (exists text, body (snd (POST rejecting_env)) = BError text) /\
  (forall rec, ~ In (EvInsertTransaction rec) (fst (POST rejecting_env))).
Proof.
  apply (POST_provider_failure_records_nothing rejecting_env paying_request).
  - vm_compute. tauto.
  - intros d H. discriminate H.
Defined.

Lemma count_app kind a b :
  count kind (a ++ b) = (count kind a + count kind b)%nat.
Proof. unfold count. now rewrite filter_app, length_app. Qed.

Lemma guard_counts pre :
  forallb guard_event pre = true ->
  count is_listing pre = 0%nat /\ count is_create pre = 0%nat /\
  count is_insert pre = 0%nat.
Proof.
  induction pre as [|ev pre IH]; [now cbn|].
  cbn [forallb]. intros H. apply andb_true_iff in H. destruct H as [Hev Hpre].
  destruct (IH Hpre) as [Hl [Hc Hi]]. unfold count in *.
  destruct ev; try discriminate Hev; cbn; auto.
Qed.

Lemma catch_log_counts o text :
  count is_listing (catch_log o text) = 0%nat /\
  count is_create (catch_log o text) = 0%nat /\
  count is_insert (catch_log o text) = 0%nat.
Proof. destruct o; cbn; auto. Qed.

Lemma transfer_counts env p t o :
  transfer env p = (t, o) ->
  count is_listing t = 1%nat /\
  (count is_create t <= 1)%nat /\
  (count is_insert t <= count is_create t)%nat.
Proof.
  unfold transfer, dispatch_and_record, debug_logs. intros H. run_handler.
  all: inversion H; subst; cbn; lia.
Qed.

(** X7: In the course of one request the provider is asked for the balance
    listing at most once and for a transfer at most once; a transfer is
    asked for only in a request that read the listing, and a record is
    inserted only in a request that asked for a transfer. *)
Theorem POST_calls_provider_at_most_once env :
  (count is_listing (fst (POST env)) <= 1)%nat /\
  (count is_create (fst (POST env)) <= count is_listing (fst (POST env)))%nat /\
  (count is_insert (fst (POST env)) <= count is_create (fst (POST env)))%nat.
Proof.
  destruct (resolve_parties env) as [pre o] eqn:Hres.
  pose proof (resolve_parties_events _ _ _ Hres) as Hpre.
  destruct (guard_counts _ Hpre) as [Hl [Hc Hi]].
  destruct o as [p|r|e].
  - rewrite (POST_trace _ _ _ Hres).
    destruct (transfer env p) as [t o] eqn:Ht.
    destruct (transfer_counts _ _ _ _ Ht) as [Hl' [Hc' Hi']].
    destruct (catch_log_counts o "Circle payment error:") as [Hl'' [Hc'' Hi'']].
    cbn [fst snd]. rewrite !count_app. lia.
  - rewrite (POST_of_returned _ _ _ Hres). cbn [fst]. lia.
  - unfold POST, POST_try. rewrite Hres. cbn [bind try_catch fst].
    rewrite !count_app. cbn. lia.
Qed.

(** X8: Every transfer asked of the provider goes from the wallet whose listing
    was read to the address of the admin wallet row, for the configured
    token id, at the fee level MEDIUM, and for one amount: the conversion of
    the body's [usdcAmount] at the decimals of the token entry found. *)
Theorem POST_transfer_request_shape env req :
  In (EvCreateTransaction req) (fst (POST env)) ->
  exists admin c m resp tok atoms,
    usable (select_admin_wallet env) = Some admin /\
    destinationAddress req = admin_address admin /\
    In (EvGetWalletTokenBalance (walletId req)) (fst (POST env)) /\
    getWalletTokenBalance env (walletId req) = SdkReturns resp /\
    find_usdc resp (CIRCLE_USDC_TOKEN_ID env) = Some tok /\
    tokenId req = CIRCLE_USDC_TOKEN_ID env /\
    fee_type req = "level" /\ feeLevel req = "MEDIUM" /\
    request_body env = BodyFields c m /\
    amountInSmallestUnit m (decimals_of tok) = inr atoms /\
    req_amount req = [atoms].
Proof.
  intros Hin.
  destruct (POST_reaches_dispatch _ _ Hin)
    as [pre [p [resp [tok [atoms [Hres [Hpre [Hget [Hfind [Hamt ->]]]]]]]]]].
  destruct (resolve_parties_normal _ _ _ Hres)
    as [_ [_ [Hbody [_ [_ [Hadm _]]]]]].
  exists (adminWallet p), (credits p), (usdcAmount p), resp, tok, atoms.
  cbn [destinationAddress walletId tokenId fee_type feeLevel req_amount
       transfer_request].
  repeat split; try assumption.
  rewrite (POST_trace _ _ _ Hres). apply in_or_app. right.
  apply in_or_app. left. unfold transfer. rewrite Hget. cbn.
  rewrite Hfind. destruct (dispatch_and_record _ _ _ _ _ _ _). left. reflexivity.
Qed.

Lemma POST_transfer_request_shape_witness :
  exists admin c m resp tok atoms,
    usable (select_admin_wallet paying_env) = Some admin /\
    destinationAddress paying_request = admin_address admin /\
    In (EvGetWalletTokenBalance (walletId paying_request)) (fst (POST paying_env)) /\
    getWalletTokenBalance paying_env (walletId paying_request) = SdkReturns resp /\
    find_usdc resp (CIRCLE_USDC_TOKEN_ID paying_env) = Some tok /\
    tokenId paying_request = CIRCLE_USDC_TOKEN_ID paying_env /\
    fee_type paying_request = "level" /\ feeLevel paying_request = "MEDIUM" /\
    request_body paying_env = BodyFields c m /\
    amountInSmallestUnit m (decimals_of tok) = inr atoms /\
    req_amount paying_request = [atoms].
Proof.
  apply (POST_transfer_request_shape paying_env paying_request).
  vm_compute. tauto.
Defined.

End PaymentGuards.

(** ** Edge behaviour of the amount conversion *)

Section ConversionEdges.
Import PaymentRoute TraceCount Scenarios.

Lemma exponent_of_6 : BigInt (sub (of_Z 6) (of_Z 2)) = Some 4.
Proof. vm_compute. reflexivity. Qed.

Lemma exponent_of_1 : BigInt (sub (of_Z 1) (of_Z 2)) = Some (-1).
Proof. vm_compute. reflexivity. Qed.

Lemma exponent_of_0 : BigInt (sub (of_Z 0) (of_Z 2)) = Some (-2).
Proof. vm_compute. reflexivity. Qed.

Lemma amountInSmallestUnit_low_decimals usdcAmount d :
  d = of_Z 0 \/ d = of_Z 1 ->
  exists e, amountInSmallestUnit usdcAmount d = inl e.
Proof.
  intros Hd. unfold amountInSmallestUnit, amountAtoms.
  destruct (BigInt (Math_floor (mul (amountNum usdcAmount) (of_Z 100))));
    [|eauto].
  destruct Hd as [-> | ->]; rewrite ?exponent_of_0, ?exponent_of_1; cbn; eauto.
Qed.

(** The transfer step on a request whose conversion throws. *)
Lemma POST_conversion_throws env pre p resp tok e :
  resolve_parties env = (pre, Normal p) ->
  getWalletTokenBalance env (circle_wallet_id (userWallet p)) = SdkReturns resp ->
  find_usdc resp (CIRCLE_USDC_TOKEN_ID env) = Some tok ->
  amountInSmallestUnit (usdcAmount p) (decimals_of tok) = inl e ->
  POST env =
    ((pre ++ [EvGetWalletTokenBalance (circle_wallet_id (userWallet p));
              EvConsole LogError "Circle payment error:"])%list,
     mkResponse 500 (BError (message_or e "An unexpected error occurred"))).
Proof.
  intros Hres Hget Hfind Hamt. rewrite (POST_of_normal _ _ _ Hres).
  unfold transfer. rewrite Hget. cbn. rewrite Hfind.
  unfold dispatch_and_record. rewrite Hamt. cbn.
  now rewrite <- app_assoc.
Qed.

(** X9: For a token entry that declares 0 or 1 decimals the conversion throws on
    every amount: the route answers 500 and asks the provider for no
    transfer. *)
Theorem POST_low_decimals_never_transfer env w resp tok :
  In (EvGetWalletTokenBalance w) (fst (POST env)) ->
  getWalletTokenBalance env w = SdkReturns resp ->
  find_usdc resp (CIRCLE_USDC_TOKEN_ID env) = Some tok ->
  decimals_of tok = of_Z 0 \/ decimals_of tok = of_Z 1 ->
  http_status (snd (POST env)) = 500 /\
  (forall req, ~ In (EvCreateTransaction req) (fst (POST env))).
Proof.
  intros Hin Hget Hfind Hdec.
  destruct (POST_reaches_listing _ _ Hin) as [pre [p [Hres [Hpre Hw]]]].
  subst w.
  destruct (amountInSmallestUnit_low_decimals (usdcAmount p) _ Hdec) as [e He].
  rewrite (POST_conversion_throws _ _ _ _ _ _ Hres Hget Hfind He).
  cbn [fst snd http_status]. split; [reflexivity|].
  intros req H. event_cases H.
Qed.

Lemma POST_low_decimals_witness :
  http_status (snd (POST one_decimal_env)) = 500 /\
  (forall req, ~ In (EvCreateTransaction req) (fst (POST one_decimal_env))).
Proof.
  apply (POST_low_decimals_never_transfer one_decimal_env "wallet-1"
           (mkBalancesResponse (Some (mkBalancesData (Some [one_decimal_entry]))))
           one_decimal_entry).
  - vm_compute. tauto.
  - reflexivity.
  - reflexivity.
  - right. reflexivity.
Defined.

(** X10: At 6 decimals every converted amount is a whole number of cents: the
    atoms are a multiple of 10000, whatever the amount received. *)
Theorem amountAtoms_whole_cents usdcAmount atoms :
  amountAtoms usdcAmount (of_Z 6) = inr atoms -> atoms mod 10000 = 0.
Proof.
  unfold amountAtoms.
  destruct (BigInt (Math_floor (mul (amountNum usdcAmount) (of_Z 100))))
    as [cents|]; [|discriminate].
  rewrite exponent_of_6. cbn. intros H. inversion H; subst.
  apply Z.mod_mul. discriminate.
Qed.

Lemma amountAtoms_whole_cents_witness :
  amountAtoms (JStr "12.3456") (of_Z 6) = inr 12340000 /\
  12340000 mod 10000 = 0.
Proof.
  assert (H : amountAtoms (JStr "12.3456") (of_Z 6) = inr 12340000)
    by (vm_compute; reflexivity).
  split; [exact H|].
  exact (amountAtoms_whole_cents (JStr "12.3456") 12340000 H).
Defined.

Lemma amountAtoms_not_finite usdcAmount d :
  amountNum usdcAmount = NaN \/
  (exists s, amountNum usdcAmount = S754_infinity s) ->
  amountAtoms usdcAmount d = inl RangeError_BigInt.
Proof.
  intros H. unfold amountAtoms.
  destruct H as [-> | [s ->]]; reflexivity.
Qed.

(** X11: An amount that is not a finite number (a string that does not parse,
    "Infinity", a numeral beyond the binary64 range) passes the presence
    check but is never sent to the provider, and the request is not
    answered with a success. *)
Theorem POST_non_finite_amount_never_transfers env c m :
  request_body env = BodyFields c m ->
  amountNum m = NaN \/ (exists s, amountNum m = S754_infinity s) ->
  (forall req, ~ In (EvCreateTransaction req) (fst (POST env))) /\
  http_status (snd (POST env)) <> 200.
Proof.
  intros Hbody Hnum.
  assert (Hno : forall req, ~ In (EvCreateTransaction req) (fst (POST env))).
  { intros req Hin.
    destruct (POST_reaches_dispatch _ _ Hin)
      as [pre [p [resp [tok [atoms [Hres [_ [_ [_ [Hamt _]]]]]]]]]].
    destruct (resolve_parties_normal _ _ _ Hres) as [_ [_ [Hb _]]].
    rewrite Hbody in Hb. inversion Hb; subst.
    unfold amountInSmallestUnit in Hamt.
    now rewrite (amountAtoms_not_finite _ _ Hnum) in Hamt. }
  split; [exact Hno|].
  intros Hok. destruct (POST_success_dispatched _ Hok) as [req [d [Hin _]]].
  exact (Hno req Hin).
Qed.

Lemma POST_non_finite_amount_witness :
  (forall req, ~ In (EvCreateTransaction req) (fst (POST garbled_env))) /\
  http_status (snd (POST garbled_env)) <> 200.
Proof.
  apply (POST_non_finite_amount_never_transfers garbled_env
           (JNum (of_Z 100)) (JStr "ten")).
  - reflexivity.
  - left. reflexivity.
Defined.

(** Rounding keeps the sign it is given. *)
Lemma binary_round_aux_sign sx mx ex lx :
  binary_round_aux prec emax sx mx ex lx = S754_zero sx \/
  (exists m e, binary_round_aux prec emax sx mx ex lx = S754_finite sx m e) \/
  binary_round_aux prec emax sx mx ex lx = S754_infinity sx \/
  binary_round_aux prec emax sx mx ex lx = S754_nan.
Proof.
  unfold binary_round_aux.
  destruct (shr_fexp prec emax mx ex lx) as [mrs' e'].
  destruct (shr_fexp prec emax _ e' loc_Exact) as [mrs'' e''].
  destruct (shr_m mrs''); [auto| |auto].
  destruct (Z.leb _ _); eauto.
Qed.

Lemma floorZ_negative m e : floorZ true m e < 0.
Proof.
  unfold floorZ.
  assert (Hv : cond_Zopp true (Zpos m) < 0) by reflexivity.
  generalize dependent (cond_Zopp true (Zpos m)). intros v Hv.
  destruct (0 <=? e) eqn:He.
  - apply Z.leb_le in He. apply Z.mul_neg_pos; [assumption|].
    now apply Z.pow_pos_nonneg.
  - apply Z.leb_gt in He. apply Z.div_lt_upper_bound.
    + apply Z.pow_pos_nonneg; lia.
    + lia.
Qed.

Lemma BigInt_negative_finite m e z :
  BigInt (S754_finite true m e) = Some z -> z <= 0.
Proof.
  unfold BigInt.
  assert (Hv : cond_Zopp true (Zpos m) < 0) by reflexivity.
  generalize dependent (cond_Zopp true (Zpos m)). intros v Hv.
  destruct (0 <=? e) eqn:He.
  - apply Z.leb_le in He. intros H.
    assert (Hz : z = v * 2 ^ e) by congruence. subst z.
    apply Z.mul_nonpos_nonneg; [lia|]. now apply Z.pow_nonneg.
  - apply Z.leb_gt in He. destruct (_ =? 0); [|discriminate].
    intros H. assert (Hz : z = v / 2 ^ (- e)) by congruence. subst z.
    apply Z.div_le_upper_bound; [apply Z.pow_pos_nonneg; lia|]. lia.
Qed.

(** The cents of a negative amount are not positive. *)
Lemma cents_of_negative_amount m e cents :
  BigInt (Math_floor (mul (S754_finite true m e) (of_Z 100))) = Some cents ->
  cents <= 0.
Proof.
  assert (H100 : of_Z 100 = S754_finite false 7036874417766400 (-46))
    by (vm_compute; reflexivity).
  rewrite H100. unfold mul, SFmul. cbn [xorb].
  destruct (binary_round_aux_sign true (Zpos (m * 7036874417766400)) (e + -46)
              loc_Exact) as [-> | [[m' [e' ->]] | [-> | ->]]];
    cbn [Math_floor]; try (cbn; intros H; inversion H; lia).
  pose proof (floorZ_negative m' e') as Hneg.
  destruct (floorZ true m' e') as [|q|q] eqn:Hq; try lia.
  cbn [binary_normalize]. unfold binary_round.
  destruct (shl_align q 0 _) as [mz ez].
  destruct (binary_round_aux_sign true (Zpos mz) ez loc_Exact)
    as [-> | [[m'' [e'' ->]] | [-> | ->]]];
    try (cbn; intros H; inversion H; lia).
  apply BigInt_negative_finite.
Qed.

(** X12: A negative [usdcAmount] is not refused: it passes the presence check,
    and every transfer requested for it carries an amount of atoms that is
    zero or negative. *)
Theorem POST_negative_amount_is_forwarded env req c m e :
  In (EvCreateTransaction req) (fst (POST env)) ->
  request_body env = BodyFields c (JNum (S754_finite true m e)) ->
  truthy (JNum (S754_finite true m e)) = true /\
  exists atoms, req_amount req = [BigInt_toString atoms] /\ atoms <= 0.
Proof.
  intros Hin Hbody. split; [reflexivity|].
  destruct (POST_reaches_dispatch _ _ Hin)
    as [pre [p [resp [tok [atoms [Hres [_ [_ [_ [Hamt ->]]]]]]]]]].
  destruct (resolve_parties_normal _ _ _ Hres) as [_ [_ [Hb _]]].
  rewrite Hbody in Hb. inversion Hb as [[Hc Hm]]. rewrite <- Hm in Hamt.
  unfold amountInSmallestUnit, amountAtoms, amountNum in Hamt.
  destruct (BigInt (Math_floor _)) as [cents|] eqn:Hcents; [|discriminate].
  apply cents_of_negative_amount in Hcents.
  destruct (BigInt (sub _ _)) as [k|]; [|discriminate].
  destruct (k <? 0) eqn:Hk; [discriminate|]. apply Z.ltb_ge in Hk.
  inversion Hamt; subst. exists (cents * 10 ^ k). split; [reflexivity|].
  apply Z.mul_nonpos_nonneg; [assumption|]. now apply Z.pow_nonneg.
Qed.

Lemma POST_negative_amount_witness :
  truthy (JNum (of_Z (-1))) = true /\
  exists atoms, req_amount negative_request = [BigInt_toString atoms] /\ atoms <= 0.
Proof.
  apply (POST_negative_amount_is_forwarded negative_env negative_request
           (JNum (of_Z 100)) 4503599627370496 (-52)).
  - vm_compute. tauto.
  - reflexivity.
Defined.

End ConversionEdges.

(* ================================================================== *)
(** * Further properties of the balance route *)
(* ================================================================== *)

Section BalanceGuards.
Import PaymentRoute BalanceRoute TraceCount Scenarios.

(** The lookup returns the first entry that carries the id. *)
Lemma find_usdc_first d before tb after t :
  tokenBalances d = Some (before ++ tb :: after)%list ->
  (forall other, In other before -> tb_token_id other <> Some t) ->
  tb_token_id tb = Some t ->
  find_usdc (mkBalancesResponse (Some d)) (Some t) = Some tb.
Proof.
  intros Htbs Hbefore Htb. unfold find_usdc. cbn [balances_data].
  rewrite Htbs. clear Htbs.
  induction before as [|x before IH]; cbn [app find].
  - rewrite Htb. cbn. now rewrite String.eqb_refl.
  - destruct (strict_eq (tb_token_id x) (Some t)) eqn:Hx.
    + exfalso. apply (Hbefore x (or_introl eq_refl)).
      unfold strict_eq in Hx. destruct (tb_token_id x); [|discriminate].
      apply String.eqb_eq in Hx. now subst.
    + apply IH. intros other Hin. apply Hbefore. now right.
Qed.

(** The balance route on an authenticated request whose listing has an
    entry for the token. *)
Lemma GET_token_found env w u resp tb :
  JsString.truthy w = true ->
  getUser env = mkAuth (Some u) None ->
  getWalletTokenBalance env w = SdkReturns resp ->
  find_usdc resp (CIRCLE_USDC_TOKEN_ID env) = Some tb ->
  GET env (Some w) =
    ([EvGetUser; EvGetWalletTokenBalance w;
      EvConsole LogInfo "[DEBUG] Wallet balances:"],
     mkResponse 200 (BBalance (balance_field (Some tb)) (Some tb))).
Proof.
  intros Hw Hauth Hget Hfind. unfold GET, GET_try.
  rewrite Hw, Hauth. cbn. rewrite Hget. cbn. rewrite Hfind. reflexivity.
Qed.

(** X13: The balance route checks the [walletId] parameter before the session:
    without it the answer is 400 and nothing is looked up; with it but
    without a session the answer is 401 and the provider is not asked. *)
Theorem GET_guards env :
  (forall walletId, walletId = None \/ walletId = Some "" ->
     GET env walletId = ([], json_error "walletId is required" 400)) /\
  (forall w, JsString.truthy w = true ->
     auth_error (getUser env) <> None \/ auth_user (getUser env) = None ->
     GET env (Some w) = ([EvGetUser], json_error "Unauthorized" 401)).
Proof.
  split.
  - intros walletId [-> | ->]; reflexivity.
  - intros w Hw Hauth. unfold GET, GET_try. rewrite Hw.
    destruct (getUser env) as [[u|] [e|]]; cbn in *; try reflexivity.
    destruct Hauth as [H|H]; [now elim H|discriminate].
Qed.

(** X14: The balance route answers 200 exactly when it was given a wallet id,
    found a session and got a listing from the provider: apart from a
    rejection by the provider, nothing in the listing makes it fail. *)
Theorem GET_success_iff env walletId :
  http_status (snd (GET env walletId)) = 200 <->
  exists w u resp,
    walletId = Some w /\ JsString.truthy w = true /\
    auth_error (getUser env) = None /\ auth_user (getUser env) = Some u /\
    getWalletTokenBalance env w = SdkReturns resp.
Proof.
  unfold GET, GET_try. split.
  - intros H. destruct walletId as [w|]; [|discriminate H].
    destruct (JsString.truthy w) eqn:Hw; [|discriminate H].
    destruct (getUser env) as [[u|] [e|]]; cbn in H; try discriminate H.
    destruct (getWalletTokenBalance env w) as [e|resp] eqn:Hget; cbn in H;
      [discriminate H|].
    exists w, u, resp. repeat split; auto.
  - intros [w [u [resp [-> [Hw [He [Hu Hget]]]]]]]. rewrite Hw.
    destruct (getUser env) as [au ae]. cbn in He, Hu. subst. cbn.
    rewrite Hget. cbn.
    destruct (find_usdc resp (CIRCLE_USDC_TOKEN_ID env)); reflexivity.
Qed.

(** X15: The balance answered is that of the first entry of the listing that
    carries the configured token id, later entries for the same id being
    ignored; an entry with an empty amount reads as "0". *)
Theorem GET_reports_first_listed_entry env w u d before tb after t :
  JsString.truthy w = true ->
  getUser env = mkAuth (Some u) None ->
  getWalletTokenBalance env w = SdkReturns (mkBalancesResponse (Some d)) ->
  CIRCLE_USDC_TOKEN_ID env = Some t ->
  tokenBalances d = Some (before ++ tb :: after)%list ->
  (forall other, In other before -> tb_token_id other <> Some t) ->
  tb_token_id tb = Some t ->
  snd (GET env (Some w)) =
    mkResponse 200
      (BBalance (if JsString.truthy (amount tb) then amount tb else "0")
                (Some tb)).
Proof.
  intros Hw Hauth Hget Htok Htbs Hbefore Htb.
  pose proof (find_usdc_first _ _ _ _ _ Htbs Hbefore Htb) as Hfind.
  rewrite <- Htok in Hfind.
  now rewrite (GET_token_found _ _ _ _ _ Hw Hauth Hget Hfind).
Qed.

Lemma GET_reports_first_listed_entry_witness :
  snd (GET doubled_env (Some "wallet-1")) =
    mkResponse 200 (BBalance "12.5" (Some (usdc_entry "12.5"))).
Proof.
  apply (GET_reports_first_listed_entry doubled_env "wallet-1" alice
           (mkBalancesData (Some [other_entry; usdc_entry "12.5"; usdc_entry "99"]))
           [other_entry] (usdc_entry "12.5") [usdc_entry "99"] "usdc-token").
  - reflexivity.
  - reflexivity.
  - reflexivity.
  - reflexivity.
  - reflexivity.
  - intros other [<-|[]]. discriminate.
  - reflexivity.
Defined.

(** X16: The balance route only reads: it asks the provider for one listing at
    most, and never for a transfer, and inserts nothing. *)
Theorem GET_is_read_only env walletId :
  (count is_listing (fst (GET env walletId)) <= 1)%nat /\
  count is_create (fst (GET env walletId)) = 0%nat /\
  count is_insert (fst (GET env walletId)) = 0%nat.
Proof.
  unfold GET, GET_try. run_handler.
  all: cbn; repeat split; lia.
Qed.

End BalanceGuards.

(* ================================================================== *)
(** * The wallets route and the choice of a wallet *)
(* ================================================================== *)

Section WalletsFacts.
Import UserWalletsRoute WalletSelection WalletScenarios.

(** X17: The wallets route answers 200 exactly when there is a session and the
    query reports no error; the body then holds a list of rows, the empty
    one when the query gave no data; the rows are asked for under the id of
    the session's user and never without a session. *)
Theorem wallets_GET_success_iff env :
  (wallets_status (snd (GET env)) = 200 <->
   exists u, auth_error (ws_getUser env) = None /\
             auth_user (ws_getUser env) = Some u /\
             q_error (ws_select_wallets env (uid u)) = None) /\
  (wallets_status (snd (GET env)) = 200 ->
   exists u, auth_user (ws_getUser env) = Some u /\
             wallets_body (snd (GET env)) =
               WsWallets (wallets_or_empty (q_data (ws_select_wallets env (uid u))))) /\
  (forall x, In (WsSelectWallets x) (fst (GET env)) ->
   exists u, auth_error (ws_getUser env) = None /\
             auth_user (ws_getUser env) = Some u /\ x = uid u).
Proof.
  unfold GET.
  destruct (ws_getUser env) as [[u|] [e|]]; cbn [auth_error auth_user].
  - repeat split; try discriminate.
    + intros [u' [H _]]. discriminate H.
    + intros x [H|[]]. discriminate H.
  - destruct (q_error (ws_select_wallets env (uid u))) as [msg|] eqn:Hq;
      cbn [fst snd wallets_status wallets_body].
    + repeat split; try discriminate.
      * intros [u' [_ [Hu H]]]. inversion Hu; subst. congruence.
      * intros x H. split_in H; try discriminate H. inversion H; subst. eauto.
    + repeat split; eauto.
      intros x H. split_in H; try discriminate H. inversion H; subst. eauto.
  - repeat split; try discriminate.
    + intros [u' [H _]]. discriminate H.
    + intros x [H|[]]. discriminate H.
  - repeat split; try discriminate.
    + intros [u' [_ [H _]]]. discriminate H.
    + intros x [H|[]]. discriminate H.
Qed.

Lemma lower_unit_s c : lower_unit c = "s"%char <-> c = "s"%char \/ c = "S"%char.
Proof.
  destruct c as [[] [] [] [] [] [] [] []]; vm_compute;
    split; intros H; try discriminate H; auto;
    destruct H as [H|H]; discriminate H.
Qed.

Lemma lower_unit_c c : lower_unit c = "c"%char <-> c = "c"%char \/ c = "C"%char.
Proof.
  destruct c as [[] [] [] [] [] [] [] []]; vm_compute;
    split; intros H; try discriminate H; auto;
    destruct H as [H|H]; discriminate H.
Qed.

Lemma lower_unit_a c : lower_unit c = "a"%char <-> c = "a"%char \/ c = "A"%char.
Proof.
  destruct c as [[] [] [] [] [] [] [] []]; vm_compute;
    split; intros H; try discriminate H; auto;
    destruct H as [H|H]; discriminate H.
Qed.

(** X18: The types that count as SCA: the three letters in either case. *)
Lemma is_sca_spec w :
  is_sca w = true <->
  exists x y z,
    entry_type w = Some (String x (String y (String z EmptyString))) /\
    (x = "s"%char \/ x = "S"%char) /\ (y = "c"%char \/ y = "C"%char) /\
    (z = "a"%char \/ z = "A"%char).
Proof.
  unfold is_sca. split.
  - destruct (entry_type w) as [t|]; [|discriminate].
    intros H. apply String.eqb_eq in H.
    destruct t as [|x [|y [|z [|k r]]]]; try discriminate H.
    cbn [toLowerCase] in H. injection H as Hx Hy Hz.
    exists x, y, z. split; [reflexivity|].
    split; [now apply lower_unit_s|]. split; [now apply lower_unit_c|].
    now apply lower_unit_a.
  - intros [x [y [z [-> [Hx [Hy Hz]]]]]]. apply String.eqb_eq.
    cbn [toLowerCase].
    apply lower_unit_s in Hx. apply lower_unit_c in Hy. apply lower_unit_a in Hz.
    now rewrite Hx, Hy, Hz.
Qed.

Lemma scaWallet_none wallets : scaWallet wallets = None -> wallets = [].
Proof.
  unfold scaWallet. destruct (find is_sca wallets); [discriminate|].
  destruct wallets; [reflexivity|discriminate].
Qed.

(** X19: The wallet chosen is the first whose type reads "sca" in any case;
    without such a wallet it is the first of the list; nothing is chosen
    only from an empty list; and the wallet chosen is one of the list. *)
Theorem scaWallet_prefers_first_sca wallets :
  (forall before w after,
     wallets = (before ++ w :: after)%list ->
     forallb (fun x => negb (is_sca x)) before = true ->
     is_sca w = true ->
     scaWallet wallets = Some w) /\
  (forallb (fun x => negb (is_sca x)) wallets = true ->
   scaWallet wallets = hd_error wallets) /\
  (scaWallet wallets = None <-> wallets = []) /\
  (forall w, scaWallet wallets = Some w -> In w wallets).
Proof.
  unfold scaWallet. split; [|split; [|split]].
  - intros before w after -> Hbefore Hw.
    assert (Hf : find is_sca (before ++ w :: after) = Some w).
    { induction before as [|x before IH]; cbn [app find].
      - now rewrite Hw.
      - cbn [forallb] in Hbefore. apply andb_true_iff in Hbefore.
        destruct Hbefore as [Hx Hrest]. apply negb_true_iff in Hx.
        rewrite Hx. now apply IH. }
    now rewrite Hf.
  - intros Hnone.
    assert (Hf : find is_sca wallets = None).
    { induction wallets as [|x ws IH]; [reflexivity|].
      cbn [forallb] in Hnone. apply andb_true_iff in Hnone.
      destruct Hnone as [Hx Hrest]. apply negb_true_iff in Hx.
      cbn [find]. rewrite Hx. now apply IH. }
    now rewrite Hf.
  - destruct (find is_sca wallets) as [w|] eqn:Hf.
    + split; [discriminate|]. intros ->. discriminate Hf.
    + destruct wallets; cbn; split; try discriminate; auto.
  - intros w. destruct (find is_sca wallets) as [w'|] eqn:Hf.
    + intros H. inversion H; subst. now apply find_some in Hf.
    + destruct wallets as [|x ws]; cbn; [discriminate|].
      intros H. inversion H; subst. now left.
Qed.

(** X20: The card takes up a custodial wallet exactly when the wallets route
    found a session, met no query error and returned at least one row; it
    then selects the wallet chosen by [scaWallet] and switches to the
    custodial path. *)
Theorem fetchCircleWallets_follows_route env :
  (fetchCircleWallets (snd (GET env)) = None <->
   wallets_status (snd (GET env)) <> 200 \/
   wallets_body (snd (GET env)) = WsWallets []) /\
  (forall i, fetchCircleWallets (snd (GET env)) = Some i ->
   exists u w,
     auth_user (ws_getUser env) = Some u /\
     scaWallet (wallets_or_empty (q_data (ws_select_wallets env (uid u)))) = Some w /\
     i = PurchaseCreditsCard.CircleWalletFetched (entry_circle_wallet_id w) /\
     forall p,
       PurchaseCreditsCard.walletType
         (PurchaseCreditsCard.ui (fst (PurchaseCreditsCard.step p i)))
         = PurchaseCreditsCard.circle /\
       PurchaseCreditsCard.selectedCircleWalletId
         (PurchaseCreditsCard.ui (fst (PurchaseCreditsCard.step p i)))
         = Some (entry_circle_wallet_id w)).
Proof.
  unfold GET, fetchCircleWallets.
  destruct (ws_getUser env) as [[u|] [e|]]; cbn [auth_error auth_user];
    try (cbn; split; [split; [intros _; left; discriminate|reflexivity]
                     |intros i H; discriminate H]).
  destruct (q_error (ws_select_wallets env (uid u))) as [msg|] eqn:Hq.
  - cbn. split; [split; [intros _; left; discriminate|reflexivity]
                |intros i H; discriminate H].
  - cbn [snd wallets_status wallets_body].
    change (response_ok 200) with true. cbn iota.
    destruct (scaWallet (wallets_or_empty (q_data (ws_select_wallets env (uid u)))))
      as [w|] eqn:Hsca.
    + split.
      * split; [discriminate|]. intros [H|H]; [now elim H|].
        inversion H as [Hnil]. rewrite Hnil in Hsca. discriminate Hsca.
      * intros i H. inversion H; subst. exists u, w.
        repeat split; auto.
    + split.
      * split; [|reflexivity]. intros _. right. f_equal.
        destruct (wallets_or_empty _) as [|x ws]; [reflexivity|].
        unfold scaWallet in Hsca. destruct (find is_sca (x :: ws)); discriminate.
      * intros i H. discriminate H.
Qed.

End WalletsFacts.

Section BadgeFacts.
Import UserWalletsRoute WalletSelection WalletScenarios CircleWalletBalance.

Lemma scaWallet_witness :
  scaWallet [eoa_entry; sca_entry; later_sca_entry] = Some sca_entry.
Proof.
  apply (proj1 (scaWallet_prefers_first_sca [eoa_entry; sca_entry; later_sca_entry])
           [eoa_entry] sca_entry [later_sca_entry]); reflexivity.
Defined.

(** X21: What the balance badge shows once the reply of the wallets route has
    been handled, starting from the first render: after a reply that is not
    ok (no session, query error) it shows nothing at all, no error either;
    after an ok reply without rows it shows "No Circle wallet found"; after
    an ok reply with rows it has started the balance request for the wallet
    chosen by [scaWallet] and, until that request settles, shows the
    literal 0.00. *)
Theorem badge_after_wallets_reply env :
  let after := fetchWallets (Some (snd (GET env))) initial in
  (wallets_status (snd (GET env)) <> 200 ->
   snd after = None /\ render (fst after) = Nothing) /\
  (wallets_body (snd (GET env)) = WsWallets [] ->
   snd after = None /\
   render (fst after) = ErrorLine (Some (Platform.Lit "No Circle wallet found"))) /\
  (forall w ws,
     wallets_body (snd (GET env)) = WsWallets (w :: ws) ->
     exists chosen,
       scaWallet (w :: ws) = Some chosen /\
       snd after = Some (entry_circle_wallet_id chosen) /\
       render (fst after) = Badge ZeroLiteral).
Proof.
  cbv zeta. unfold GET.
  destruct (Platform.auth_error (ws_getUser env)) as [e|];
    [|destruct (Platform.auth_user (ws_getUser env)) as [u|]].
  - cbn. repeat split; discriminate.
  - destruct (Platform.q_error (ws_select_wallets env (Platform.uid u)))
      as [msg|] eqn:Hq.
    + cbn. repeat split; discriminate.
    + cbn [snd wallets_status wallets_body]. unfold fetchWallets.
      change (response_ok 200) with true. cbn iota.
      destruct (wallets_or_empty _) as [|x xs] eqn:Hrows.
      * cbn. split; [intros H; now elim H|]. split; [auto|].
        intros w ws H. discriminate H.
      * split; [intros H; now elim H|]. split; [intros H; discriminate H|].
        intros w ws H. inversion H; subst.
        destruct (scaWallet (w :: ws)) as [chosen|] eqn:Hsca.
        -- exists chosen. cbn. rewrite Hsca. auto.
        -- apply scaWallet_none in Hsca. discriminate Hsca.
  - cbn. repeat split; discriminate.
Qed.

End BadgeFacts.

(* ================================================================== *)
(** * The handlers after their await *)
(* ================================================================== *)

Section FollowUpFacts.
Import PaymentRoute PurchaseCreditsCard WalletSelection PurchaseFollowUp Scenarios.

(** The five statuses the payment route answers with. *)
Lemma POST_status_values env :
  http_status (snd (POST env)) = 200 \/ http_status (snd (POST env)) = 400 \/
  http_status (snd (POST env)) = 401 \/ http_status (snd (POST env)) = 404 \/
  http_status (snd (POST env)) = 500.
Proof.
  destruct (resolve_parties env) as [pre [p|r|e]] eqn:Hres.
  - rewrite (POST_of_normal _ _ _ Hres).
    destruct (transfer env p) as [t [r|r|e]] eqn:Ht; cbn.
    + destruct (transfer_normal _ _ _ _ Ht)
        as [resp [tok [atoms [d [Hget [Hfind [Hamt [Hcreate Hid]]]]]]]].
      unfold transfer in Ht. rewrite Hget in Ht. cbn in Ht. rewrite Hfind in Ht.
      rewrite (dispatch_and_record_ok _ _ _ _ _ _ _ _ _ Hamt Hcreate Hid) in Ht.
      inversion Ht; subst. auto.
    + rewrite (transfer_returned _ _ _ _ Ht). auto.
    + auto 6.
  - rewrite (POST_of_returned _ _ _ Hres). cbn.
    destruct (resolve_parties_returned _ _ _ Hres) as [-> | [-> | [-> | ->]]];
      cbn; auto 6.
  - unfold POST, POST_try. rewrite Hres. cbn. auto 6.
Qed.

Lemma POST_ok_iff_200 env :
  response_ok (http_status (snd (POST env))) = true <->
  http_status (snd (POST env)) = 200.
Proof.
  destruct (POST_status_values env) as [H|[H|[H|[H|H]]]]; rewrite H;
    split; intros H'; try reflexivity; discriminate H'.
Qed.

(** X22: On the custodial path the card shows the confirmation exactly when the
    payment route has called the provider and received a transaction id;
    in every other case it shows one "Payment failed" notice and no
    confirmation, with the route's error text when there is one. *)
Theorem custodial_confirmation_iff_transfer env st v :
  (existsb shows_confirmation
     (handleCirclePurchase_resume st v (inr (snd (POST env)))) = true <->
   exists req d,
     In (EvCreateTransaction req) (fst (POST env)) /\
     createTransaction env req = SdkReturns (mkCreateTxResponse (Some d)) /\
     JsString.truthy (created_id d) = true) /\
  (existsb shows_confirmation
     (handleCirclePurchase_resume st v (inr (snd (POST env)))) = false ->
   handleCirclePurchase_resume st v (inr (snd (POST env))) =
     [ToastFailure "Payment failed" (payment_error (body (snd (POST env))))]) /\
  (forall tx,
     In (ShowConfirmation tx)
        (handleCirclePurchase_resume st v (inr (snd (POST env)))) ->
     conf_credits tx = creditsToPurchase st /\
     conf_usdcAmount tx = view_requiredUsdc v /\
     conf_txHash tx = "pending" /\ conf_status tx = "pending").
Proof.
  unfold handleCirclePurchase_resume.
  destruct (response_ok (http_status (snd (POST env)))) eqn:Hok.
  - apply POST_ok_iff_200 in Hok. split; [|split].
    + split; [intros _; now apply POST_success_dispatched|reflexivity].
    + discriminate.
    + intros tx H. split_in H; try discriminate H.
      inversion H; subst. auto.
  - split; [|split].
    + split; [discriminate|]. intros H.
      assert (H200 : http_status (snd (POST env)) = 200).
      { destruct H as [req [d [Hin [Hcreate Hid]]]].
        destruct (POST_reaches_dispatch _ _ Hin)
          as [pre [p [resp [tok [atoms [Hres [_ [Hget [Hfind [Hamt ->]]]]]]]]]].
        now rewrite (POST_dispatched _ _ _ _ _ _ _ Hres Hget Hfind Hamt Hcreate Hid). }
      apply POST_ok_iff_200 in H200. congruence.
    + reflexivity.
    + intros tx H. split_in H; discriminate H.
Qed.

(** X23: On the external path: a transfer the wallet rejects is never recorded
    and never confirmed; a transfer the wallet submits is always reported
    for recording, once, under its hash, with the credits and the amount of
    the render of the click and the destination the transfer went to; the
    confirmation is shown only when the recording request is accepted and
    its body parses, and otherwise, although the transfer was submitted, a
    failure notice is shown. *)
Theorem external_followups st v st' tok to value :
  handleExternalPurchase st v
    = (st', [WriteContractTransfer tok to value], true) ->
  (forall short persist,
     handleExternalPurchase_resume st v (WalletRejected short) persist
       = [ToastFailure "Transaction error" (external_failure short)]) /\
  (forall txHash persist,
     filter is_persist
            (handleExternalPurchase_resume st v (WalletSubmitted txHash) persist)
       = [PersistTransaction
            (mkPersistBody (creditsToPurchase st) (view_requiredUsdc v) txHash
                           (chainId st) (externalAddress st) (Some to))]) /\
  (forall txHash persist,
     existsb shows_confirmation
             (handleExternalPurchase_resume st v (WalletSubmitted txHash) persist)
       = true <->
     exists transactionId, persist = PersistAccepted (Some transactionId)) /\
  (forall txHash persist,
     (forall transactionId, persist <> PersistAccepted (Some transactionId)) ->
     exists title text,
       In (ToastFailure title text)
          (handleExternalPurchase_resume st v (WalletSubmitted txHash) persist)).
Proof.
  intros Hclick.
  assert (Hdest : destination st = Some to).
  { unfold handleExternalPurchase in Hclick.
    repeat case_split; inversion Hclick; subst; reflexivity. }
  split; [reflexivity|]. split; [|split].
  - intros txHash persist. unfold handleExternalPurchase_resume.
    rewrite Hdest. destruct persist as [| |[[t|]|]]; reflexivity.
  - intros txHash persist. unfold handleExternalPurchase_resume.
    destruct persist as [| |[t|]]; cbn; split; try discriminate; eauto;
      intros [t' H]; discriminate H.
  - intros txHash persist Hno. unfold handleExternalPurchase_resume.
    destruct persist as [| |[t|]]; cbn; eauto 6.
    now elim (Hno t).
Qed.

End FollowUpFacts.

(* ================================================================== *)
(** * Further properties of the card *)
(* ================================================================== *)

Section CardFacts.
Import PaymentRoute BalanceRoute PurchaseCreditsCard PurchaseFollowUp.
Import Scenarios CardScenarios.

Lemma external_followups_witness :
  filter is_persist
         (handleExternalPurchase_resume (ui ready_page) ready_view
            (WalletSubmitted "0xfeed") PersistThrows)
    = [PersistTransaction
         (mkPersistBody (of_Z 10) (of_Z 10) "0xfeed" 5042002 (Some "0xa11ce")
                        (Some "0x7ea5"))] /\
  exists title text,
    In (ToastFailure title text)
       (handleExternalPurchase_resume (ui ready_page) ready_view
          (WalletSubmitted "0xfeed") PersistThrows).
Proof.
  destruct (external_followups (ui ready_page) ready_view
              (setIsSubmitting true (ui ready_page)) "0x3600" "0x7ea5" 10000000
              eq_refl) as [_ [Hpersist [_ Hnotice]]].
  split.
  - exact (Hpersist "0xfeed" PersistThrows).
  - apply (Hnotice "0xfeed" PersistThrows). intros t H. discriminate H.
Defined.

Lemma of_Z_1 : of_Z 1 = S754_finite false 4503599627370496 (-52).
Proof. reflexivity. Qed.

Lemma times_2_52 (m : positive) :
  (m * 4503599627370496)%positive = Pos.iter xO m 52%positive.
Proof. rewrite Pos.mul_comm. reflexivity. Qed.

Lemma digits_times_2_52 m :
  Zpos (digits2_pos (Pos.iter xO m 52%positive)) = Zpos (digits2_pos m) + 52.
Proof. cbn [Pos.iter]. cbn [digits2_pos]. lia. Qed.

Lemma shr_52 m :
  iter_pos shr_1 52%positive
    {| shr_m := Zpos (Pos.iter xO m 52%positive); shr_r := false; shr_s := false |}
  = {| shr_m := Zpos m; shr_r := false; shr_s := false |}.
Proof. reflexivity. Qed.

(** Multiplying a binary64 number by 1 gives the number back. *)
Lemma mul_one x :
  valid_binary prec emax x = true -> mul x (of_Z 1) = x.
Proof.
  destruct x as [s|s| |s m e]; intros Hv; rewrite of_Z_1;
    try (unfold mul, SFmul; now rewrite ?xorb_false_r).
  unfold valid_binary, bounded in Hv. apply andb_true_iff in Hv.
  destruct Hv as [Hc Hb]. unfold canonical_mantissa in Hc.
  apply Z.eqb_eq in Hc.
  unfold mul, SFmul. rewrite xorb_false_r.
  rewrite times_2_52. unfold binary_round_aux.
  unfold shr_fexp at 1. unfold Zdigits2. rewrite digits_times_2_52.
  replace (Zpos (digits2_pos m) + 52 + (e + -52))
    with (Zpos (digits2_pos m) + e) by lia.
  rewrite Hc. replace (e - (e + -52)) with 52 by lia.
  unfold shr_record_of_loc. unfold shr. rewrite shr_52.
  cbn [shr_m loc_of_shr_record round_nearest_even].
  unfold shr_fexp. unfold Zdigits2.
  replace (e + -52 + 52) with e by lia. rewrite Hc. rewrite Z.sub_diag.
  cbn [shr shr_record_of_loc shr_m].
  rewrite Hb. reflexivity.
Qed.

(** X24: For every binary64 number of credits the card asks the payment route
    for exactly that number as [usdcAmount]: the two fields of the body it
    sends are equal, and are the credits of the render of the click. *)
Theorem card_sends_usdcAmount_equal_to_credits p p' effs c u :
  valid_binary prec emax (creditsToPurchase (ui p)) = true ->
  click_pay p = (p', effs) ->
  In (FetchCirclePayment c u) effs ->
  c = creditsToPurchase (ui p) /\ u = c.
Proof.
  intros Hv Hclick Hin.
  destruct (click_pay_body_is_derived _ _ _ _ _ Hclick Hin) as [-> ->].
  split; [reflexivity|]. unfold USDC_PER_CREDIT. now apply mul_one.
Qed.

Lemma card_sends_usdcAmount_witness :
  of_Z 10 = creditsToPurchase (ui custodial_page) /\ of_Z 10 = of_Z 10.
Proof.
  apply (card_sends_usdcAmount_equal_to_credits custodial_page
           (fst (click_pay custodial_page)) (snd (click_pay custodial_page))
           (of_Z 10) (of_Z 10)).
  - reflexivity.
  - reflexivity.
  - vm_compute. tauto.
Defined.

Lemma SFcompare_swap x y :
  SFcompare y x =
    match SFcompare x y with
    | Some c => Some (CompOpp c)
    | None => None
    end.
Proof.
  destruct x as [sx|sx| |sx mx ex], y as [sy|sy| |sy my ey]; cbn;
    try reflexivity; try (destruct sx; reflexivity);
    try (destruct sy; reflexivity); try (destruct sx, sy; reflexivity).
  destruct sx, sy; try reflexivity.
  - rewrite (Z.compare_antisym ey ex). destruct (ey ?= ex); cbn; try reflexivity.
    now rewrite (Pos.compare_cont_antisym mx my Eq).
  - rewrite (Z.compare_antisym ey ex). destruct (ey ?= ex); cbn; try reflexivity.
    now rewrite (Pos.compare_cont_antisym mx my Eq).
Qed.

Lemma SFcompare_none x y : SFcompare x y = None -> x = S754_nan \/ y = S754_nan.
Proof.
  destruct x as [sx|sx| |sx mx ex], y as [sy|sy| |sy my ey]; cbn;
    try discriminate; auto.
Qed.

(** X25: On the custodial path, with a balance string in the state: the
    "Insufficient Circle wallet balance." warning and a sufficient balance
    exclude each other, and a balance that is neither sufficient nor warned
    about is one that does not parse to a number (the empty string
    included), or is compared with a required amount that is not a
    number. *)
Theorem circle_warning_and_sufficiency (s : string) (r : float64) heb eb micro :
  let sufficient := hasSufficientBalance circle heb eb (Some s) r micro in
  let warned := lt (JsString.parseFloat s) r in
  circle_notice false (Some s) r = CircleBalanceLine (JsString.parseFloat s) warned /\
  (sufficient = true -> warned = false) /\
  (warned = true -> sufficient = false) /\
  (sufficient = false -> warned = false ->
   JsString.parseFloat s = NaN \/ r = NaN).
Proof.
  cbv zeta. split; [reflexivity|].
  assert (Hsuff : hasSufficientBalance circle heb eb (Some s) r micro
                  = ge (JsString.parseFloat s) r).
  { unfold hasSufficientBalance. destruct s as [|c s']; [|reflexivity].
    cbn [JsString.truthy]. change (JsString.parseFloat "") with NaN.
    now rewrite ge_nan_l. }
  rewrite Hsuff. unfold ge, lt, SFleb, SFltb.
  rewrite (SFcompare_swap (JsString.parseFloat s) r).
  destruct (SFcompare (JsString.parseFloat s) r) as [[| |]|] eqn:Hc; cbn;
    repeat split; try discriminate; try reflexivity.
  intros _ _. now apply SFcompare_none in Hc.
Qed.

Lemma Math_max0_not_negative x : lt (Math_max0 x) (of_Z 0) = false.
Proof. destruct x as [s|s| |s m e]; try destruct s; reflexivity. Qed.

Lemma preset_not_negative n amount :
  nth_error presetUsdcAmounts n = Some amount ->
  lt (div amount USDC_PER_CREDIT) (of_Z 0) = false.
Proof.
  assert (Hall : forallb (fun a => negb (lt (div a USDC_PER_CREDIT) (of_Z 0)))
                         presetUsdcAmounts = true) by (vm_compute; reflexivity).
  intros H. apply nth_error_In in H. rewrite forallb_forall in Hall.
  specialize (Hall _ H). now apply negb_true_iff in Hall.
Qed.

Lemma step_keeps_credits_not_negative p i :
  lt (creditsToPurchase (ui p)) (of_Z 0) = false ->
  lt (creditsToPurchase (ui (fst (step p i)))) (of_Z 0) = false.
Proof.
  intros Hp. destruct i; unfold step, control_event.
  - destruct (click_pay p) as [p' effs] eqn:Hc.
    destruct (click_pay_cases _ _ _ Hc) as [[_ ->]|[_ [_ ->]]]; exact Hp.
  - destruct (in_flight p); exact Hp.
  - exact Hp.
  - destruct (isSubmitting (ui p)); [exact Hp|].
    apply Math_max0_not_negative.
  - destruct (nth_error presetUsdcAmounts n) as [amount|] eqn:Hn; [|exact Hp].
    destruct (isSubmitting (ui p)); [exact Hp|].
    now apply (preset_not_negative n).
  - exact Hp.
  - exact Hp.
  - exact Hp.
  - exact Hp.
Qed.

(** X26: On every page reached from the first render, whatever is typed in the
    credits field, the number of credits is never below zero. *)
Theorem credits_never_negative h inputs :
  lt (creditsToPurchase (ui (fst (run (initial h) inputs)))) (of_Z 0) = false.
Proof.
  assert (Hinv : forall inputs p,
             lt (creditsToPurchase (ui p)) (of_Z 0) = false ->
             lt (creditsToPurchase (ui (fst (run p inputs)))) (of_Z 0) = false).
  { clear. induction inputs as [|i rest IH]; intros p Hp; [exact Hp|].
    cbn [run]. pose proof (step_keeps_credits_not_negative p i Hp) as Hs.
    destruct (step p i) as [p' effs]. specialize (IH p' Hs).
    destruct (run p' rest) as [p'' effs']. exact IH. }
  apply Hinv. reflexivity.
Qed.

(** One render, with every field of its view. *)
Lemma render_full st v :
  render st = Some v ->
  exists micro,
    requiredUsdcMicro (requiredUsdc (creditsToPurchase st)) = Some micro /\
    v = mkView (requiredUsdc (creditsToPurchase st)) micro
          (hasSufficientBalance (walletType st) (hasExternalBalance st)
             (externalBalance st) (circleBalance st)
             (requiredUsdc (creditsToPurchase st)) micro)
          (buttonDisabled
             (isConnected (walletType st) (isExternalConnected st)
                          (selectedCircleWalletId st))
             (hasSufficientBalance (walletType st) (hasExternalBalance st)
                (externalBalance st) (circleBalance st)
                (requiredUsdc (creditsToPurchase st)) micro)
             (creditsToPurchase st) (destination st) (walletType st)
             (usdcAddress st) (isSubmitting st) (isExternalBalanceLoading st)).
Proof.
  unfold render. destruct (requiredUsdcMicro _) as [micro|]; [|discriminate].
  intros H. inversion H; subst. exists micro. split; reflexivity.
Qed.

(** What an enabled button tells about the state. *)
Lemma buttonDisabled_false c s x d w u sub l :
  buttonDisabled c s x d w u sub l = false ->
  c = true /\ s = true /\ le x (of_Z 0) = false /\ present d = true /\
  sub = false /\ (is_external w = true -> present u = true /\ l = false).
Proof.
  unfold buttonDisabled. intros H.
  repeat (apply orb_false_iff in H; destruct H as [H ?]).
  apply negb_false_iff in H.
  repeat match goal with
         | Hn : negb _ = false |- _ => apply negb_false_iff in Hn
         end.
  repeat split; auto.
  - destruct (is_external w); [|discriminate].
    cbn in *. now apply negb_false_iff.
  - destruct (is_external w); [|discriminate]. now cbn in *.
Qed.

(** X27: No transfer is asked for beyond the balance the page knows: a click
    dispatches only from a page that is not submitting, has a destination
    and more than zero credits; on the external path the transfer goes to
    that destination, on the token of the current chain, for
    [requiredUsdcMicro] atoms, which the on-chain balance covers; on the
    custodial path the amount sent is covered by the parsed balance. *)
Theorem click_dispatches_within_balance p p' effs :
  click_pay p = (p', effs) ->
  (forall tok to value,
     In (WriteContractTransfer tok to value) effs ->
     walletType (ui p) = external /\
     usdcAddress (ui p) = Some tok /\ destination (ui p) = Some to /\
     requiredUsdcMicro (requiredUsdc (creditsToPurchase (ui p))) = Some value /\
     (exists balance, externalBalance (ui p) = Some balance /\ value <= balance) /\
     le (creditsToPurchase (ui p)) (of_Z 0) = false /\
     isSubmitting (ui p) = false) /\
  (forall c u,
     In (FetchCirclePayment c u) effs ->
     walletType (ui p) = circle /\
     (exists s, circleBalance (ui p) = Some s /\
                ge (JsString.parseFloat s) u = true) /\
     present (selectedCircleWalletId (ui p)) = true /\
     present (destination (ui p)) = true /\
     le c (of_Z 0) = false /\
     isSubmitting (ui p) = false).
Proof.
  unfold click_pay, control_event. intros H.
  destruct (render (ui p)) as [v|] eqn:Hr;
    [|inversion H; subst; split; intros; contradiction].
  destruct (render_full _ _ Hr) as [micro [Hmicro ->]].
  cbn [view_buttonDisabled view_requiredUsdcMicro view_requiredUsdc] in H.
  destruct (buttonDisabled _ _ _ _ _ _ _ _) eqn:Hb;
    [inversion H; subst; split; intros; contradiction|].
  apply buttonDisabled_false in Hb.
  destruct Hb as [Hconn [Hsuff [Hpos [Hdest [Hsub Hext]]]]].
  destruct (walletType (ui p)) eqn:Hw.
  - specialize (Hext eq_refl). destruct Hext as [Husdc _].
    unfold handleExternalPurchase in H.
    cbn [view_requiredUsdcMicro] in H.
    split.
    + intros tok to value Hin.
      unfold hasSufficientBalance in Hsuff.
      destruct (hasExternalBalance (ui p)); [|discriminate Hsuff].
      destruct (externalBalance (ui p)) as [balance|]; [|discriminate Hsuff].
      repeat case_split; inversion H; subst; split_in Hin;
        try discriminate Hin.
      inversion Hin; subst. repeat split; auto.
      exists balance. split; [reflexivity|]. lia.
    + intros c u Hin.
      repeat case_split; inversion H; subst; split_in Hin; discriminate Hin.
  - unfold handleCirclePurchase in H. cbn [view_requiredUsdc] in H.
    split.
    + intros tok to value Hin.
      repeat case_split; inversion H; subst; split_in Hin; discriminate Hin.
    + intros c u Hin.
      unfold hasSufficientBalance in Hsuff.
      destruct (circleBalance (ui p)) as [s|]; [|discriminate Hsuff].
      destruct (JsString.truthy s); [|discriminate Hsuff].
      repeat case_split; inversion H; subst; split_in Hin;
        try discriminate Hin.
      inversion Hin; subst. repeat split; auto.
      exists s. split; [reflexivity|assumption].
Qed.

Lemma click_dispatches_within_balance_witness :
  walletType (ui ready_page) = external /\
  usdcAddress (ui ready_page) = Some "0x3600" /\
  destination (ui ready_page) = Some "0x7ea5" /\
  requiredUsdcMicro (requiredUsdc (creditsToPurchase (ui ready_page)))
    = Some 10000000 /\
  (exists balance, externalBalance (ui ready_page) = Some balance /\
                   10000000 <= balance) /\
  le (creditsToPurchase (ui ready_page)) (of_Z 0) = false /\
  isSubmitting (ui ready_page) = false.
Proof.
  apply (proj1 (click_dispatches_within_balance ready_page
                  (fst (click_pay ready_page)) (snd (click_pay ready_page))
                  eq_refl) "0x3600" "0x7ea5" 10000000).
  vm_compute. tauto.
Defined.

(** X28: When the configured token id is not in the wallet's listing, the
    balance the balance route answers with leaves the custodial pay button
    disabled for every number of credits, and counts as insufficient for
    every number above zero: a misconfigured token id shows as a lack of
    funds on the card. *)
Theorem unlisted_token_disables_custodial_pay env w u resp t b raw p :
  JsString.truthy w = true ->
  getUser env = mkAuth (Some u) None ->
  getWalletTokenBalance env w = SdkReturns resp ->
  CIRCLE_USDC_TOKEN_ID env = Some t ->
  ~ lists_token resp t ->
  body (snd (GET env (Some w))) = BBalance b raw ->
  walletType (ui p) = circle ->
  valid_binary prec emax (creditsToPurchase (ui p)) = true ->
  b = "0" /\
  (forall v, render (ui (fst (step p (CircleBalanceFetched b)))) = Some v ->
             view_buttonDisabled v = true /\
             (le (creditsToPurchase (ui p)) (of_Z 0) = false ->
              view_hasSufficientBalance v = false)) /\
  step (fst (step p (CircleBalanceFetched b))) ClickPay
    = (fst (step p (CircleBalanceFetched b)), []).
Proof.
  intros Hw Hauth Hget Htok Habs Hbody Hcircle Hvalid.
  assert (Hfind : find_usdc resp (CIRCLE_USDC_TOKEN_ID env) = None)
    by (rewrite Htok; now apply find_usdc_absent).
  rewrite (GET_token_absent _ _ _ _ Hw Hauth Hget Hfind) in Hbody.
  cbn in Hbody. inversion Hbody; subst b raw. split; [reflexivity|].
  cbn [step fst].
  assert (Hview : forall v,
             render (setCircleBalance (Some "0") (ui p)) = Some v ->
             view_buttonDisabled v = true /\
             (le (creditsToPurchase (ui p)) (of_Z 0) = false ->
              view_hasSufficientBalance v = false)).
  { intros v Hr. destruct (render_full _ _ Hr) as [micro [_ ->]].
    cbn [view_hasSufficientBalance view_buttonDisabled setCircleBalance
         walletType hasExternalBalance externalBalance circleBalance
         creditsToPurchase destination usdcAddress isSubmitting
         isExternalBalanceLoading isExternalConnected selectedCircleWalletId].
    rewrite Hcircle. unfold requiredUsdc, USDC_PER_CREDIT.
    rewrite (mul_one _ Hvalid).
    unfold hasSufficientBalance. cbn [JsString.truthy].
    change (JsString.parseFloat "0") with (of_Z 0).
    unfold buttonDisabled. unfold ge, le.
    destruct (SFleb (creditsToPurchase (ui p)) (of_Z 0)); cbn [negb];
      rewrite ?orb_true_r; split; auto; discriminate. }
  split; [exact Hview|].
  unfold click_pay, control_event. cbn [ui].
  destruct (render (setCircleBalance (Some "0") (ui p))) as [v|] eqn:Hr;
    [|reflexivity].
  destruct (Hview v eq_refl) as [-> _]. reflexivity.
Qed.

Lemma unlisted_token_disables_custodial_pay_witness :
  "0" = "0" /\
  (forall v,
     render (ui (fst (step custodial_waiting_page (CircleBalanceFetched "0"))))
       = Some v ->
     view_buttonDisabled v = true /\
     (le (creditsToPurchase (ui custodial_waiting_page)) (of_Z 0) = false ->
      view_hasSufficientBalance v = false)) /\
  step (fst (step custodial_waiting_page (CircleBalanceFetched "0"))) ClickPay
    = (fst (step custodial_waiting_page (CircleBalanceFetched "0")), []).
Proof.
  apply (unlisted_token_disables_custodial_pay unlisted_env "wallet-1" alice
           (mkBalancesResponse (Some (mkBalancesData (Some [other_entry]))))
           "usdc-token" "0" None custodial_waiting_page).
  - reflexivity.
  - reflexivity.
  - reflexivity.
  - reflexivity.
  - exact other_listing_lacks_usdc.
  - reflexivity.
  - reflexivity.
  - reflexivity.
Defined.

End CardFacts.

Section BodyFacts.
Import PaymentRoute.

Lemma record_copies_body_witness :
  request_body paying_env = BodyFields (JNum (of_Z 100)) (JNum (of_Z 100)) /\
  exchange_rate (transaction_record alice alice_wallet (JNum (of_Z 100))
                                    (JNum (of_Z 100)) "tx-1") = of_Z 1.
Proof.
  apply (record_copies_body paying_env
           (transaction_record alice alice_wallet (JNum (of_Z 100))
                               (JNum (of_Z 100)) "tx-1")).
  vm_compute. tauto.
Defined.

End BodyFacts.
